(** * virtrigaud libvirt provider: entry point and protocol contracts

    A shallow embedding of [cmd/provider-libvirt/main.go] (the process
    entry point of the libvirt provider) together with models of the task
    tracker, provider server and reconciliation controller the design
    document describes.  Source line numbers refer to [main.go]. *)

From Stdlib Require Import ZArith List String Ascii Bool Lia DecimalString.
From stdpp Require Import gmap strings list.

Local Open Scope string_scope.
Local Open Scope Z_scope.

(** ** Strings as Go has them *)

(** The line feed of the format strings (["\n"] in Go). *)
Definition nl : string := String (ascii_of_nat 10) EmptyString.

(** [fmt.Sprintf("%d", n)]. *)
Definition itoa (n : Z) : string := NilZero.string_of_int (Z.to_int n).

(** ** Package [log/slog]: levels, handlers, records *)
Module slog.

(** [slog.Level] is an [int]; the four named levels. *)
Definition Level := Z.
Definition LevelDebug : Level := -4.
Definition LevelInfo : Level := 0.
Definition LevelWarn : Level := 4.
Definition LevelError : Level := 8.

(** [Level.String()], at the four named levels and between them. *)
Definition offset (base : string) (d : Z) : string :=
  if d =? 0 then base
  else if 0 <? d then base +:+ "+" +:+ itoa d
  else base +:+ itoa d.

Definition Level_String (l : Level) : string :=
  if l <? LevelInfo then offset "DEBUG" (l - LevelDebug)
  else if l <? LevelWarn then offset "INFO" (l - LevelInfo)
  else if l <? LevelError then offset "WARN" (l - LevelWarn)
  else offset "ERROR" (l - LevelError).

(** The two handler implementations [main] chooses from; both write to
    [os.Stdout] and carry the minimum level of their [HandlerOptions]. *)
Inductive HandlerKind := JSONHandler | TextHandler.

Record Handler := { kind : HandlerKind; minLevel : Level }.

Definition NewJSONHandler (lvl : Level) : Handler :=
  {| kind := JSONHandler; minLevel := lvl |}.
Definition NewTextHandler (lvl : Level) : Handler :=
  {| kind := TextHandler; minLevel := lvl |}.

(** [Handler.Enabled]: a record is handled when its level is at least
    the handler's minimum. *)
Definition Enabled (h : Handler) (l : Level) : bool := minLevel h <=? l.

(** Attribute values passed to the logger by [main]. *)
Inductive Value :=
| VString (s : string)
| VInt (n : Z)
| VStrings (l : list string)
| VError (e : string).

Record Record_ := {
  handler : HandlerKind;
  level : Level;
  msg : string;
  attrs : list (string * Value)
}.

End slog.

(** ** Package [os]: the environment of the process *)
Module os.

(** [os.Getenv]: the value of the variable, empty when it is unset. *)
Definition Getenv (environ : gmap string string) (key : string) : string :=
  default EmptyString (environ !! key).

End os.

(** ** [getLogLevel] (lines 149-162) *)
Definition getLogLevel (environ : gmap string string) : slog.Level :=
  let v := os.Getenv environ "LOG_LEVEL" in
  if String.eqb v "debug" then slog.LevelDebug
  else if String.eqb v "warn" then slog.LevelWarn
  else if String.eqb v "error" then slog.LevelError
  else slog.LevelInfo.

(** ** Package [flag]: the command-line flag set of [main]

    [main] declares integer flags only, so the flag set is the map from
    flag names to their current values.  [ParseInt] stands for
    [strconv.ParseInt(s, 0, strconv.IntSize)], which the [flag] package
    uses to read an integer value; nothing is assumed about it. *)
Module flag.
Section Parse.
Variable ParseInt : string -> option Z.

Inductive Step :=
| Next (vals : gmap string Z) (rest : list string)
| Done (rest : list string)
| Err (msg : string)
| HelpRequested.

(** Split at the first ['='] (the loop of [parseOne] looking for a
    value attached to the flag). *)
Fixpoint cut_eq (s : string) : string * option string :=
  match s with
  | EmptyString => (EmptyString, None)
  | String c s' =>
      if Ascii.eqb c "="%char then (EmptyString, Some s')
      else let (n, v) := cut_eq s' in (String c n, v)
  end.

(** Storing the value of a flag; the value has to read as an integer
    (the error message is abridged). *)
Definition set (vals : gmap string Z) (name value : string)
    (rest : list string) : Step :=
  match ParseInt value with
  | Some z => Next (<[name := z]> vals) rest
  | None => Err ("invalid value " +:+ value +:+ " for flag -" +:+ name)
  end.

(** [FlagSet.parseOne]: one flag, with its value, off the front of the
    arguments. *)
Definition parseOne (vals : gmap string Z) (args : list string) : Step :=
  match args with
  | [] => Done []
  | s :: rest =>
      match s with
      | String "-"%char (String c1 s2 as s1) =>
          if Ascii.eqb c1 "-"%char && String.eqb s2 EmptyString
          then Done rest
          else
            match (if Ascii.eqb c1 "-"%char then s2 else s1) with
            | EmptyString => Err ("bad flag syntax: " +:+ s)
            | String c n' =>
                if Ascii.eqb c "-"%char || Ascii.eqb c "="%char
                then Err ("bad flag syntax: " +:+ s)
                else
                  let (n, value) := cut_eq n' in
                  let name := String c n in
                  match vals !! name with
                  | None =>
                      if String.eqb name "help" || String.eqb name "h"
                      then HelpRequested
                      else Err ("flag provided but not defined: -" +:+ name)
                  | Some _ =>
                      match value, rest with
                      | Some v, _ => set vals name v rest
                      | None, v :: rest' => set vals name v rest'
                      | None, [] =>
                          Err ("flag needs an argument: -" +:+ name)
                      end
                  end
            end
      | _ => Done args
      end
  end.

Inductive Outcome :=
| Parsed (vals : gmap string Z) (rest : list string)
| Failed (msg : string)
| Help.

(** [FlagSet.Parse]: [parseOne] until it stops; every round consumes
    an argument, so [length args] rounds and one more are enough. *)
Fixpoint parseLoop (fuel : nat) (vals : gmap string Z)
    (args : list string) : option Outcome :=
  match fuel with
  | O => None
  | S n =>
      match parseOne vals args with
      | Next vals' rest => parseLoop n vals' rest
      | Done rest => Some (Parsed vals rest)
      | Err m => Some (Failed m)
      | HelpRequested => Some Help
      end
  end.

Definition Parse (vals : gmap string Z) (args : list string) : Outcome :=
  match parseLoop (S (length args)) vals args with
  | Some o => o
  | None => Parsed vals args
  end.

End Parse.
End flag.

(** ** Package [google.golang.org/grpc/health]: the health service *)
Module health.

Inductive ServingStatus := UNKNOWN | SERVING | NOT_SERVING | SERVICE_UNKNOWN.

#[global] Instance ServingStatus_eq_dec : EqDecision ServingStatus.
Proof. solve_decision. Defined.

(** [health.Server]: the status of each service name, and whether
    [Shutdown] has been called. *)
Record Server := { shutdown : bool; statusMap : gmap string ServingStatus }.

(** [health.NewServer()] starts with the empty service name serving. *)
Definition NewServer : Server :=
  {| shutdown := false; statusMap := {[ EmptyString := SERVING ]} |}.

Definition SetServingStatus (s : Server) (service : string)
    (st : ServingStatus) : Server :=
  if shutdown s then s
  else {| shutdown := false; statusMap := <[service := st]> (statusMap s) |}.

(** The [Check] RPC: the status of the service, [None] standing for the
    [NotFound] error of an unknown service. *)
Definition Check (s : Server) (service : string) : option ServingStatus :=
  statusMap s !! service.

End health.

(** ** Package [net/http]: response writers and the request multiplexer *)
Module http.

Definition StatusOK : Z := 200.
Definition StatusNotFound : Z := 404.

Record Request := { Method : string; Path : string }.

(** What the server has sent to the client so far: the status code once
    the header is written, and the body; [head] tells that the request
    is a [HEAD] request, whose response carries no body. *)
Record ResponseWriter := { head : bool; status : option Z; body : string }.

(** The response writer the server hands to the handler of a request. *)
Definition fresh (r : Request) : ResponseWriter :=
  {| head := String.eqb (Method r) "HEAD";
     status := None; body := EmptyString |}.

(** [WriteHeader]: the first call fixes the status code. *)
Definition WriteHeader (code : Z) (w : ResponseWriter) : ResponseWriter :=
  match status w with
  | Some _ => w
  | None => {| head := head w; status := Some code; body := body w |}
  end.

(** [Write]: writes the header with [StatusOK] if none was written; the
    data goes to the client unless the request is a [HEAD] request, for
    which the server eats the writes. *)
Definition Write (data : string) (w : ResponseWriter) : ResponseWriter :=
  let w' := WriteHeader StatusOK w in
  {| head := head w'; status := status w';
     body := if head w' then body w' else body w' +:+ data |}.

Definition HandlerFunc : Type := ResponseWriter -> Request -> ResponseWriter.

Definition NotFound : HandlerFunc := fun w _ =>
  Write ("404 page not found" +:+ nl) (WriteHeader StatusNotFound w).

(** A [ServeMux] whose patterns are plain paths without method or host:
    a request whose path is exactly a pattern is routed to the handler
    registered under it, whatever its method.  The redirects by which
    the real multiplexer answers a path that is not in its clean form
    are left out: for such a path this model answers not found. *)
Definition ServeMux : Type := list (string * HandlerFunc).

Definition NewServeMux : ServeMux := [].

Definition HandleFunc (mux : ServeMux) (pattern : string)
    (h : HandlerFunc) : ServeMux :=
  (mux ++ [(pattern, h)])%list.

Fixpoint Handler (mux : ServeMux) (path : string) : HandlerFunc :=
  match mux with
  | [] => NotFound
  | (pattern, h) :: mux' =>
      if String.eqb pattern path then h else Handler mux' path
  end.

Definition ServeHTTP (mux : ServeMux) (r : Request) : ResponseWriter :=
  Handler mux (Path r) (fresh r) r.

End http.

(** ** The process and its observable behaviour *)

(** What ends the serving phase of [main], in which the two server
    goroutines run and [main] waits on [ctx.Done()]. *)
Inductive Serving :=
| Signalled
| GrpcServeFailed (err : string)
| HttpServeFailed (err : string)
| Forever.

(** Health of what the process depends on. *)
Record Dependencies := {
  store_connected : bool;
  provider_reachable : bool
}.

Definition healthy (d : Dependencies) : bool :=
  store_connected d && provider_reachable d.

(** Everything [main] reads from outside: [os.Args] (which is
    [argv0 :: arguments]), the environment variables, the outcome of
    [net.Listen] on each address ([Some err] when it fails), what ends
    the serving phase, and the state of the dependencies. *)
Record Process := {
  argv0 : string;
  arguments : list string;
  environ : gmap string string;
  listen : string -> option string;
  serving : Serving;
  dependencies : Dependencies
}.

Definition os_Args (p : Process) : list string := argv0 p :: arguments p.

(** The calls of [main] that act on the outside world or on the server
    objects, in program order. *)
Inductive Event :=
| Printf (s : string)
| FlagError (msg : string)
| FlagUsage
| NotifyContext
| GrpcNewServer
| LibvirtNew
| LibvirtNewServer
| RegisterProviderServer
| HealthNewServer
| RegisterHealthServer
| HealthSetServingStatus (service : string) (st : health.ServingStatus)
| NetListen (address : string)
| Log (r : slog.Record_)
| HttpHandleFunc (pattern : string)
| HttpServer (addr : string)
| GoGrpcServe
| GoHttpListenAndServe
| GrpcGracefulStop
| HttpShutdown
| SignalStop.

(** How a run ends: [main] returns, [os.Exit] is called, or the process
    stays in its serving phase for ever. *)
Inductive Result (A : Type) :=
| Ret (a : A)
| Exit (code : Z)
| Blocked.
Arguments Ret {A} a.
Arguments Exit {A} code.
Arguments Blocked {A}.

(** Computations of [main]: they extend the trace of events and return,
    exit, or block. *)
Definition M (A : Type) : Type := list Event -> list Event * Result A.

#[global] Instance M_ret : MRet M := fun A a tr => (tr, Ret a).

#[global] Instance M_bind : MBind M := fun A B f m tr =>
  match m tr with
  | (tr', Ret a) => f a tr'
  | (tr', Exit c) => (tr', Exit c)
  | (tr', Blocked) => (tr', Blocked)
  end.

Definition emit (e : Event) : M unit := fun tr => ((tr ++ [e])%list, Ret tt).
Definition os_Exit {A} (code : Z) : M A := fun tr => (tr, Exit code).
Definition block {A} : M A := fun tr => (tr, Blocked).
Definition when (c : bool) (m : M unit) : M unit := if c then m else mret tt.

(** ** The health endpoints registered by [main] (lines 106-114) *)
Definition healthz : http.HandlerFunc := fun w r =>
  http.Write "ok" (http.WriteHeader http.StatusOK w).

Definition readyz : http.HandlerFunc := fun w r =>
  http.Write "ready" (http.WriteHeader http.StatusOK w).

Definition healthMux : http.ServeMux :=
  http.HandleFunc (http.HandleFunc http.NewServeMux "/healthz" healthz)
    "/readyz" readyz.

(** The answer of the HTTP health server to a request, as the client
    receives it.  The handlers are closures over nothing: the
    dependencies are in scope of the process but not of the answer. *)
Definition respond (d : Dependencies) (r : http.Request) : http.ResponseWriter :=
  http.ServeHTTP healthMux r.

Definition reports_ready (w : http.ResponseWriter) : bool :=
  bool_decide (http.status w = Some http.StatusOK).

(** ** The capability and platform lists of the start-up record
    (lines 98-102) *)
Definition capabilities : list string :=
  [ "core"; "snapshots"; "linked-clones";
    "online-reconfigure"; "qemu-guest-agent" ].

Definition supported_platforms : list string := [ "kvm"; "qemu"; "libvirt" ].

(** ** [main] (lines 39-147) *)
Section Program.

(** [version.String()] of package [internal/version], fixed when the
    binary is built. *)
Variable version_String : string.
(** [strconv.ParseInt], as used by the [flag] package. *)
Variable ParseInt : string -> option Z.

Definition fmt_Printf (s : string) : M unit := emit (Printf s).

(** The flags declared at lines 48-49, with their defaults. *)
Definition CommandLine : gmap string Z :=
  <[ "health-port" := 8080 ]> (<[ "port" := 9443 ]> ∅).

(** [flag.Parse()] on the command line; the flag set exits the process
    on a parse error (status 2) and on a request for help (status 0). *)
Definition flag_Parse (p : Process) : M (gmap string Z) :=
  match flag.Parse ParseInt CommandLine (arguments p) with
  | flag.Parsed vals _ => mret vals
  | flag.Failed m => emit (FlagError m) ;; emit FlagUsage ;; os_Exit 2
  | flag.Help => emit FlagUsage ;; os_Exit 0
  end.

Definition flagValue (vals : gmap string Z) (name : string) : Z :=
  default 0 (vals !! name).

(** Lines 53-64: the handler behind the logger. *)
Definition newHandler (env : gmap string string) : slog.Handler :=
  let logFormat := os.Getenv env "LOG_FORMAT" in
  if String.eqb logFormat "json"
  then slog.NewJSONHandler (getLogLevel env)
  else slog.NewTextHandler (getLogLevel env).

Definition logger_log (h : slog.Handler) (lvl : slog.Level) (msg : string)
    (attrs : list (string * slog.Value)) : M unit :=
  when (slog.Enabled h lvl)
    (emit (Log {| slog.handler := slog.kind h; slog.level := lvl;
                  slog.msg := msg; slog.attrs := attrs |})).

Definition logger_Info h := logger_log h slog.LevelInfo.
Definition logger_Error h := logger_log h slog.LevelError.

Definition net_Listen (p : Process) (address : string) : M (option string) :=
  emit (NetListen address) ;; mret (listen p address).

(** The serving phase (lines 123-140): the two goroutines are started
    and [main] waits for the signal context.  A goroutine whose server
    fails logs the error and exits the process.  The phase is taken by
    its outcome: the signal, the failure of one server, or neither; a
    failure that falls into the shutdown of [main] is not told apart
    from one before it, so what is stated of this phase is stated of
    the calls of one thread, in the order that thread makes them. *)
Definition serve (p : Process) (logger : slog.Handler) : M unit :=
  emit GoGrpcServe ;;
  emit GoHttpListenAndServe ;;
  match serving p with
  | Signalled => mret tt
  | GrpcServeFailed err =>
      logger_Error logger "Failed to serve gRPC" [("error", slog.VError err)] ;;
      os_Exit 1
  | HttpServeFailed err =>
      logger_Error logger "Failed to serve HTTP health server"
        [("error", slog.VError err)] ;;
      os_Exit 1
  | Forever => block
  end.

Definition is_version (p : Process) : bool :=
  (1 <? Z.of_nat (length (os_Args p)))
  && String.eqb (nth 1 (os_Args p) EmptyString) "--version".

Definition main (p : Process) : M unit :=
  when (is_version p)
    (fmt_Printf ("virtrigaud-provider-libvirt " +:+ version_String +:+ nl) ;;
     os_Exit 0) ;;
  vals ← flag_Parse p;
  let port := flagValue vals "port" in
  let healthPort := flagValue vals "health-port" in
  let logFormat := os.Getenv (environ p) "LOG_FORMAT" in
  let logger := newHandler (environ p) in
  emit NotifyContext ;;
  emit GrpcNewServer ;;
  emit LibvirtNew ;;
  emit LibvirtNewServer ;;
  emit RegisterProviderServer ;;
  emit HealthNewServer ;;
  emit RegisterHealthServer ;;
  emit (HealthSetServingStatus EmptyString health.SERVING) ;;
  err ← net_Listen p (":" +:+ itoa port);
  when (bool_decide (err ≠ None))
    (logger_Error logger "Failed to listen"
       [("error", slog.VError (default EmptyString err))] ;;
     os_Exit 1) ;;
  logger_Info logger "Starting Libvirt provider server"
    [ ("version", slog.VString version_String);
      ("log_level", slog.VString (slog.Level_String (getLogLevel (environ p))));
      ("log_format", slog.VString logFormat);
      ("port", slog.VInt port);
      ("health_port", slog.VInt healthPort);
      ("capabilities", slog.VStrings capabilities);
      ("supported_platforms", slog.VStrings supported_platforms) ] ;;
  emit (HttpHandleFunc "/healthz") ;;
  emit (HttpHandleFunc "/readyz") ;;
  emit (HttpServer (":" +:+ itoa healthPort)) ;;
  logger_Info logger "Starting HTTP health server"
    [("port", slog.VInt healthPort)] ;;
  serve p logger ;;
  logger_Info logger "Shutting down gRPC server..." [] ;;
  emit GrpcGracefulStop ;;
  logger_Info logger "Shutting down HTTP health server..." [] ;;
  emit HttpShutdown ;;
  emit SignalStop.

(** A run of the process: the events in order, and how it ended. *)
Definition run (p : Process) : list Event * Result unit := main p [].

End Program.

(** ** The error taxonomy of the provider protocol (design, section 7) *)
Inductive ErrorKind :=
| NotFound
| AlreadyExists
| Unavailable
| InvalidArgument
| Internal
| Canceled
| Unimplemented.

#[global] Instance ErrorKind_eq_dec : EqDecision ErrorKind.
Proof. solve_decision. Defined.

(** ** Task tracker

    Modelled from the spec: the task tracker of section 4.4 and the task
    of section 3 of the design; their code is not among the repository
    files at hand. *)
Module TaskTracker.

(** Modelled from the spec: the phases of a task. *)
Inductive Phase := Pending | Running | Succeeded | Failed | Cancelled.

#[global] Instance Phase_eq_dec : EqDecision Phase.
Proof. solve_decision. Defined.

(** Modelled from the spec: the phases in which a task stays for good. *)
Definition terminal (ph : Phase) : bool :=
  match ph with
  | Succeeded | Failed | Cancelled => true
  | Pending | Running => false
  end.

(** Modelled from the spec: the result or error of a task; the result
    of a creation is the reference of the new VM. *)
Inductive Outcome :=
| Ok (ref : option nat)
| Err (e : ErrorKind).

(** Modelled from the spec: a task, under its idempotency key. *)
Record Task := {
  key : string;
  phase : Phase;
  outcome : option Outcome;
  cancel_requested : bool
}.

(** Modelled from the spec: what launching an operation yields: a
    backend job that is still running, or an operation the backend
    completed synchronously, wrapped as an already-terminal task. *)
Inductive Launch :=
| Started
| Completed (o : Outcome).

(** Modelled from the spec: the terminal phase an outcome leads to. *)
Definition settle (o : Outcome) : Phase :=
  match o with
  | Ok _ => Succeeded
  | Err Canceled => Cancelled
  | Err _ => Failed
  end.

Definition launched (k : string) (l : Launch) : Task :=
  match l with
  | Started =>
      {| key := k; phase := Running; outcome := None;
         cancel_requested := false |}
  | Completed o =>
      {| key := k; phase := settle o; outcome := Some o;
         cancel_requested := false |}
  end.

(** Modelled from the spec: what a poll reports. *)
Inductive PollResult :=
| Known (ph : Phase) (o : option Outcome)
| Evicted.

Section Tracker.

(** The tracker is generic in the backend its operations act on. *)
Variable Backend : Type.

Definition operationFn : Type := Backend -> Backend * Launch.

(** Modelled from the spec: the registry.  It maps idempotency keys to
    handles and handles to tasks; handles are never reused; [invoked]
    lists, in order, the keys whose operation function was invoked. *)
Record World := {
  by_key : gmap string nat;
  tasks : gmap nat Task;
  next : nat;
  invoked : list string;
  backend : Backend
}.

Definition init (b : Backend) : World :=
  {| by_key := ∅; tasks := ∅; next := O; invoked := []; backend := b |}.

(** Modelled from the spec: [Register(key, operationFn)]: a registered
    key returns the existing handle, whatever the phase of its task,
    and the operation function is not invoked; a new key gets a new
    tracked task and its operation is launched. *)
Definition Register (k : string) (f : operationFn) (w : World) : nat * World :=
  match by_key w !! k with
  | Some h => (h, w)
  | None =>
      let h := next w in
      let (b', l) := f (backend w) in
      (h, {| by_key := <[k := h]> (by_key w);
             tasks := <[h := launched k l]> (tasks w);
             next := S h;
             invoked := (invoked w ++ [k])%list;
             backend := b' |})
  end.

(** Modelled from the spec: [Poll(handle)]; an evicted (or unknown)
    handle is reported as such, apart from a failure. *)
Definition Poll (h : nat) (w : World) : PollResult :=
  match tasks w !! h with
  | Some t => Known (phase t) (outcome t)
  | None => Evicted
  end.

Definition with_tasks (w : World) (ts : gmap nat Task) : World :=
  {| by_key := by_key w; tasks := ts; next := next w;
     invoked := invoked w; backend := backend w |}.

(** Modelled from the spec: [Cancel(handle)] is best effort: a task
    that is not terminal is marked for cancellation. *)
Definition Cancel (h : nat) (w : World) : World :=
  match tasks w !! h with
  | Some t =>
      if terminal (phase t) then w
      else with_tasks w
             (<[h := {| key := key t; phase := phase t;
                        outcome := outcome t;
                        cancel_requested := true |}]> (tasks w))
  | None => w
  end.

(** Modelled from the spec: the backend job of a task that is not
    terminal ends, with its result or error. *)
Definition Complete (h : nat) (o : Outcome) (w : World) : World :=
  match tasks w !! h with
  | Some t =>
      if terminal (phase t) then w
      else with_tasks w
             (<[h := {| key := key t; phase := settle o;
                        outcome := Some o;
                        cancel_requested := cancel_requested t |}]> (tasks w))
  | None => w
  end.

(** Modelled from the spec: retention; the window of a terminal entry
    has elapsed and the entry is evicted. *)
Definition Evict (h : nat) (w : World) : World :=
  match tasks w !! h with
  | Some t =>
      if terminal (phase t)
      then {| by_key := delete (key t) (by_key w);
              tasks := delete h (tasks w);
              next := next w; invoked := invoked w; backend := backend w |}
      else w
  | None => w
  end.

(** The calls and happenings a tracker sees between two registrations. *)
Inductive Call :=
| CRegister (k : string) (f : operationFn)
| CPoll (h : nat)
| CCancel (h : nat)
| CComplete (h : nat) (o : Outcome)
| CEvict (h : nat).

Definition step (w : World) (c : Call) : World :=
  match c with
  | CRegister k f => snd (Register k f w)
  | CPoll h => w
  | CCancel h => Cancel h w
  | CComplete h o => Complete h o w
  | CEvict h => Evict h w
  end.

Definition steps (cs : list Call) (w : World) : World := fold_left step cs w.

Definition evicts (h : nat) (c : Call) : bool :=
  match c with
  | CEvict h' => bool_decide (h' = h)
  | _ => false
  end.

(** The task of handle [h] is retained throughout the calls. *)
Definition retained (h : nat) (cs : list Call) : bool :=
  forallb (fun c => negb (evicts h c)) cs.

(** Consistency of the two maps of the registry. *)
Record consistent (w : World) : Prop := {
  key_of_task : forall h t, tasks w !! h = Some t -> by_key w !! key t = Some h;
  task_of_key : forall k h, by_key w !! k = Some h ->
                            exists t, tasks w !! h = Some t /\ key t = k;
  handles_below : forall h t, tasks w !! h = Some t -> (h < next w)%nat
}.

End Tracker.

Arguments by_key {Backend} w.
Arguments tasks {Backend} w.
Arguments next {Backend} w.
Arguments invoked {Backend} w.
Arguments backend {Backend} w.
Arguments init {Backend} b.
Arguments Register {Backend} k f w.
Arguments Poll {Backend} h w.
Arguments Cancel {Backend} h w.
Arguments Complete {Backend} h o w.
Arguments Evict {Backend} h w.
Arguments CRegister {Backend} k f.
Arguments CPoll {Backend} h.
Arguments CCancel {Backend} h.
Arguments CComplete {Backend} h o.
Arguments CEvict {Backend} h.
Arguments step {Backend} w c.
Arguments steps {Backend} cs w.
Arguments evicts {Backend} h c.
Arguments retained {Backend} h cs.
Arguments consistent {Backend} w.

End TaskTracker.

(** ** Provider server

    Modelled from the spec: the provider server of section 4.3 over the
    protocol of section 4.2, with a hypervisor that holds VMs under
    numeric references; their code is not among the repository files at
    hand. *)
Module Provider.
Import TaskTracker.

(** Modelled from the spec: the power of a VM as the backend has it. *)
Inductive Power := PoweredOn | PoweredOff.

#[global] Instance Power_eq_dec : EqDecision Power.
Proof. solve_decision. Defined.

Record VM := { name : string; power : Power }.

(** Modelled from the spec: the backend; [guest_agent] tells whether it
    can shut a guest down cooperatively. *)
Record Hypervisor := { vms : gmap nat VM; guest_agent : bool }.

Definition with_vms (b : Hypervisor) (m : gmap nat VM) : Hypervisor :=
  {| vms := m; guest_agent := guest_agent b |}.

(** Modelled from the spec: the backend-native calls, with the error of
    the backend if any. *)
Definition backend_create (n : string) (b : Hypervisor)
    : Hypervisor * nat :=
  let ref := fresh (dom (vms b)) in
  (with_vms b (<[ref := {| name := n; power := PoweredOff |}]> (vms b)), ref).

Definition backend_delete (ref : nat) (b : Hypervisor)
    : Hypervisor * option ErrorKind :=
  match vms b !! ref with
  | Some _ => (with_vms b (delete ref (vms b)), None)
  | None => (b, Some NotFound)
  end.

Definition backend_power (target : Power) (ref : nat) (b : Hypervisor)
    : Hypervisor * option ErrorKind :=
  match vms b !! ref with
  | Some vm =>
      (with_vms b (<[ref := {| name := name vm; power := target |}]> (vms b)),
       None)
  | None => (b, Some NotFound)
  end.

(** Modelled from the spec: the mutating calls of the protocol. *)
Inductive RPC :=
| Create (n : string)
| Delete (ref : nat)
| PowerOn (ref : nat)
| PowerOff (ref : nat)
| PowerOffGraceful (ref : nat).

Definition report (r : Hypervisor * option ErrorKind) : Hypervisor * Launch :=
  match r with
  | (b, None) => (b, Completed (Ok None))
  | (b, Some e) => (b, Completed (Err e))
  end.

(** Modelled from the spec: the backend operation behind each call.
    [Delete] must succeed if the target is already absent; a
    cooperative shutdown is [Unimplemented] on a backend without guest
    agent. *)
Definition operation (rpc : RPC) : operationFn Hypervisor := fun b =>
  match rpc with
  | Create n =>
      let (b', ref) := backend_create n b in (b', Completed (Ok (Some ref)))
  | Delete ref =>
      match backend_delete ref b with
      | (b', Some NotFound) => (b', Completed (Ok None))
      | r => report r
      end
  | PowerOn ref => report (backend_power PoweredOn ref b)
  | PowerOff ref => report (backend_power PoweredOff ref b)
  | PowerOffGraceful ref =>
      if guest_agent b then report (backend_power PoweredOff ref b)
      else (b, Completed (Err Unimplemented))
  end.

(** Modelled from the spec: a mutating call first checks the task
    tracker for the idempotency key; a hit returns the existing
    handle, a miss creates a tracked task and launches the backend
    operation. *)
Definition call (rpc : RPC) (idempotencyKey : string)
    (w : World Hypervisor) : nat * World Hypervisor :=
  Register idempotencyKey (operation rpc) w.

End Provider.

(** ** Reconciliation controller

    Modelled from the spec: the controller of section 4.1, its error
    policy of section 7 and the data model of section 3; its code is not
    among the repository files at hand. *)
Module Controller.
Import TaskTracker.

(** Modelled from the spec: the power state a resource asks for. *)
Inductive PowerState := On | Off | OffGraceful | Suspended.

(** Modelled from the spec: the states of the per-resource state
    machine. *)
Inductive Lifecycle :=
| LPending | Provisioning | LRunning | Stopped | LSuspended
| Deleting | Deleted | LFailed.

#[global] Instance Lifecycle_eq_dec : EqDecision Lifecycle.
Proof. solve_decision. Defined.

(** Modelled from the spec: the kinds of operation the controller
    issues. *)
Inductive OpKind := KCreate | KDelete | KPowerOn | KPowerOff | KPowerOffGraceful.

#[global] Instance OpKind_eq_dec : EqDecision OpKind.
Proof. solve_decision. Defined.

Definition kind_name (k : OpKind) : string :=
  match k with
  | KCreate => "create"
  | KDelete => "delete"
  | KPowerOn => "power-on"
  | KPowerOff => "power-off"
  | KPowerOffGraceful => "power-off-graceful"
  end.

(** Modelled from the spec: a condition of the status (without its
    transition time). *)
Record Condition := {
  ctype : string;
  cstatus : bool;
  reason : string;
  message : string
}.

(** Modelled from the spec: a VM resource: the desired part, and the
    status the controller writes. *)
Record Resource := {
  uid : string;
  generation : nat;
  desired_power : PowerState;
  deletion_requested : bool;
  lifecycle : Lifecycle;
  failed_generation : nat;
  vm_ref : option nat;
  observed_power : option Provider.Power;
  conditions : list Condition;
  active_task : option (nat * OpKind)
}.

Definition with_status (r : Resource) (l : Lifecycle) (ref : option nat)
    (pw : option Provider.Power) (cs : list Condition)
    (t : option (nat * OpKind)) : Resource :=
  {| uid := uid r; generation := generation r;
     desired_power := desired_power r;
     deletion_requested := deletion_requested r;
     lifecycle := l; failed_generation := failed_generation r;
     vm_ref := ref; observed_power := pw;
     conditions := cs; active_task := t |}.

(** Modelled from the spec: the capability token that gates a
    guest-cooperative power-off. *)
Definition guest_agent : string := "guest-agent".

(** Modelled from the spec: the task key is derived from the resource
    UID, its generation and the operation kind. *)
Definition task_key (r : Resource) (k : OpKind) : string :=
  uid r +:+ "/" +:+ itoa (Z.of_nat (generation r)) +:+ "/" +:+ kind_name k.

(** Modelled from the spec: the operation for a power state target,
    after capability gating: without [guest-agent] a graceful power-off
    is replaced by the hard one.  The protocol has no call that
    suspends. *)
Definition power_operation (caps : gset string) (target : PowerState)
    : option OpKind :=
  match target with
  | On => Some KPowerOn
  | Off => Some KPowerOff
  | OffGraceful =>
      if bool_decide (guest_agent ∈ caps) then Some KPowerOffGraceful
      else Some KPowerOff
  | Suspended => None
  end.

(** Modelled from the spec: whether the observed power is what the
    target asks for; both power-off targets are met by a VM that is
    off. *)
Definition power_matches (target : PowerState)
    (observed : option Provider.Power) : bool :=
  match target, observed with
  | On, Some Provider.PoweredOn => true
  | (Off | OffGraceful), Some Provider.PoweredOff => true
  | _, _ => false
  end.

(** Modelled from the spec: the diff of desired and observed state
    (step 3): deletion requested, no VM yet, power state mismatch. *)
Definition plan (caps : gset string) (r : Resource) : option OpKind :=
  if deletion_requested r then
    if bool_decide (lifecycle r = Deleted) then None else Some KDelete
  else if bool_decide (lifecycle r = LFailed)
          && (generation r =? failed_generation r)%nat then None
  else match vm_ref r with
       | None => Some KCreate
       | Some _ =>
           if power_matches (desired_power r) (observed_power r) then None
           else power_operation caps (desired_power r)
       end.

(** Modelled from the spec: the protocol call of an operation kind on
    the VM of the resource. *)
Definition rpc_of (k : OpKind) (r : Resource) : option Provider.RPC :=
  match k, vm_ref r with
  | KCreate, _ => Some (Provider.Create (uid r))
  | KDelete, Some ref => Some (Provider.Delete ref)
  | KPowerOn, Some ref => Some (Provider.PowerOn ref)
  | KPowerOff, Some ref => Some (Provider.PowerOff ref)
  | KPowerOffGraceful, Some ref => Some (Provider.PowerOffGraceful ref)
  | _, None => None
  end.

(** Modelled from the spec: the state entered while an operation is in
    flight. *)
Definition transition (k : OpKind) (r : Resource) : Lifecycle :=
  match k with
  | KCreate => Provisioning
  | KDelete => Deleting
  | KPowerOn | KPowerOff | KPowerOffGraceful => lifecycle r
  end.

(** Modelled from the spec: an operation the controller issued through
    the provider client. *)
Record Issued := { issued_kind : OpKind; issued_key : string }.

(** Modelled from the spec: steps 3 and 4: with no active task, compute
    the diff; if it needs an operation, build the key, invoke the
    provider and store the task reference.  A resource to delete that
    has no VM is deleted at once. *)
Definition issue (caps : gset string) (r : Resource)
    (w : World Provider.Hypervisor)
    : Resource * World Provider.Hypervisor * list Issued :=
  match plan caps r with
  | None => (r, w, [])
  | Some k =>
      match rpc_of k r with
      | None =>
          (with_status r Deleted None None (conditions r) None, w, [])
      | Some rpc =>
          let key := task_key r k in
          let (h, w') := Provider.call rpc key w in
          (with_status r (transition k r) (vm_ref r) (observed_power r)
             (conditions r) (Some (h, k)),
           w', [ {| issued_kind := k; issued_key := key |} ])
      end
  end.

(** Modelled from the spec: merging the result of a succeeded task
    into the observed status, clearing the task reference. *)
Definition merge (k : OpKind) (o : option Outcome) (r : Resource) : Resource :=
  match k with
  | KCreate =>
      let ref := match o with Some (Ok ref) => ref | _ => None end in
      with_status r Stopped ref (Some Provider.PoweredOff) (conditions r) None
  | KDelete => with_status r Deleted None None (conditions r) None
  | KPowerOn =>
      with_status r LRunning (vm_ref r) (Some Provider.PoweredOn)
        (conditions r) None
  | KPowerOff | KPowerOffGraceful =>
      with_status r Stopped (vm_ref r) (Some Provider.PoweredOff)
        (conditions r) None
  end.

(** Modelled from the spec: a new condition of the same type replaces
    the prior entry only if status or reason changed. *)
Fixpoint set_condition (c : Condition) (cs : list Condition) : list Condition :=
  match cs with
  | [] => [c]
  | c' :: cs' =>
      if String.eqb (ctype c') (ctype c) then
        if Bool.eqb (cstatus c') (cstatus c) && String.eqb (reason c') (reason c)
        then c' :: cs' else c :: cs'
      else c' :: set_condition c cs'
  end.

Definition failed_condition (e : ErrorKind) : Condition :=
  {| ctype := "Failed"; cstatus := true;
     reason := match e with
               | InvalidArgument => "InvalidArgument"
               | Unimplemented => "InvalidArgument"
               | NotFound => "NotFound"
               | AlreadyExists => "AlreadyExists"
               | Unavailable => "Unavailable"
               | Internal => "Internal"
               | Canceled => "Canceled"
               end;
     message := "operation failed" |}.

(** Modelled from the spec: the controller policy for a failed task:
    [NotFound] on a delete is success; [Unavailable] and [Internal]
    (and [AlreadyExists] on a create, surfaced as [Internal]) are
    retried; the others are permanent and set the [Failed] condition. *)
Definition failed (k : OpKind) (e : ErrorKind) (r : Resource) : Resource :=
  match k, e with
  | KDelete, NotFound => merge KDelete None r
  | _, (Unavailable | Internal) | KCreate, AlreadyExists =>
      with_status r (lifecycle r) (vm_ref r) (observed_power r)
        (conditions r) None
  | _, _ =>
      {| uid := uid r; generation := generation r;
         desired_power := desired_power r;
         deletion_requested := deletion_requested r;
         lifecycle := LFailed; failed_generation := generation r;
         vm_ref := vm_ref r; observed_power := observed_power r;
         conditions := set_condition (failed_condition e) (conditions r);
         active_task := None |}
  end.

(** Modelled from the spec: one reconcile pass.  An active task is
    polled: succeeded, its result is merged and the next diff is
    derived; failed, the error is classified; pending or running, the
    pass takes no other action; evicted, the state is unknown and the
    task reference is dropped so that the next pass verifies again. *)
Definition Reconcile (caps : gset string) (r : Resource)
    (w : World Provider.Hypervisor)
    : Resource * World Provider.Hypervisor * list Issued :=
  match active_task r with
  | Some (h, k) =>
      match Poll h w with
      | Known Succeeded o => issue caps (merge k o r) w
      | Known Failed (Some (Err e)) => (failed k e r, w, [])
      | Known Failed _ => (failed k Internal r, w, [])
      | Known Cancelled _ =>
          (with_status r (lifecycle r) (vm_ref r) (observed_power r)
             (conditions r) None, w, [])
      | Known (Pending | Running) _ => (r, w, [])
      | Evicted =>
          (with_status r (lifecycle r) (vm_ref r) (observed_power r)
             (conditions r) None, w, [])
      end
  | None => issue caps r w
  end.

(** The operation kinds a pass issued. *)
Definition issued_kinds (x : Resource * World Provider.Hypervisor * list Issued)
    : list OpKind :=
  map issued_kind (snd x).

End Controller.

(** ** The health service as a run leaves it *)

(** The health server after an event: [None] until it is created. *)
Definition health_step (s : option health.Server) (e : Event)
    : option health.Server :=
  match e with
  | HealthNewServer => Some health.NewServer
  | HealthSetServingStatus service st =>
      (fun srv => health.SetServingStatus srv service st) <$> s
  | _ => s
  end.

Definition health_after (tr : list Event) : option health.Server :=
  fold_left health_step tr None.

(** The answer of the gRPC [Check] call once the events [tr] have
    happened: [None] when there is no health server or the service is
    unknown to it. *)
Definition HealthCheck (tr : list Event) (service : string)
    : option health.ServingStatus :=
  health_after tr ≫= fun srv => health.Check srv service.

Definition sets_status (e : Event) : bool :=
  match e with
  | HealthNewServer | HealthSetServingStatus _ _ => true
  | _ => false
  end.

Definition is_listen (e : Event) : bool :=
  match e with NetListen _ => true | _ => false end.

Definition starts_server (e : Event) : bool :=
  match e with GoGrpcServe | GoHttpListenAndServe => true | _ => false end.

Definition is_serving_set (e : Event) : bool :=
  match e with
  | HealthSetServingStatus service st =>
      String.eqb service EmptyString && bool_decide (st = health.SERVING)
  | _ => false
  end.

(** Modelled from the spec: the tokens the capability vocabulary names
    (sections 3 and 6); the vocabulary is open-ended. *)
Definition vocabulary : list string :=
  [ "snapshots"; "linked-clones"; "online-reconfigure"; "guest-agent" ].

(** The claim that readiness follows the dependencies: the endpoint
    reports ready only when they are healthy. *)
Definition readiness_tracks_dependencies : Prop :=
  forall (d : Dependencies) (r : http.Request),
    http.Path r = "/readyz" ->
    reports_ready (respond d r) = true -> healthy d = true.

(** The claim that a key, once registered, is registered for good:
    after [Register k f], whatever calls follow, [Register k g] returns
    the same handle and changes nothing. *)
Definition registered_for_good : Prop :=
  forall (w : TaskTracker.World nat) (k : string)
         (f g : TaskTracker.operationFn nat)
         (cs : list (TaskTracker.Call nat)),
    TaskTracker.consistent w ->
    TaskTracker.Register k g
      (TaskTracker.steps cs (TaskTracker.Register k f w).2)
    = ((TaskTracker.Register k f w).1,
       TaskTracker.steps cs (TaskTracker.Register k f w).2).

(** ** Sample inputs *)

Definition unhealthy : Dependencies :=
  {| store_connected := false; provider_reachable := false |}.

(** A process started without arguments, with an empty environment,
    whose listen succeeds and which is then interrupted. *)
Definition plain : Process :=
  {| argv0 := "provider-libvirt"; arguments := [];
     environ := ∅; listen := fun _ => None;
     serving := Signalled; dependencies := unhealthy |}.

(** The same with [--version] as its first argument. *)
Definition asks_version : Process :=
  {| argv0 := "provider-libvirt"; arguments := ["--version"; "-port"; "1"];
     environ := ∅; listen := fun _ => None;
     serving := Signalled; dependencies := unhealthy |}.

(** A process whose port is taken. *)
Definition port_taken : Process :=
  {| argv0 := "provider-libvirt"; arguments := [];
     environ := {[ "LOG_FORMAT" := "json" ]};
     listen := fun _ => Some "address already in use";
     serving := Signalled; dependencies := unhealthy |}.

Definition no_int : string -> option Z := fun _ => None.

(** A reader of unsigned decimal numbers, to run the flag set with. *)
Definition digit (c : ascii) : option Z :=
  let n := Z.of_nat (nat_of_ascii c) in
  if (48 <=? n) && (n <=? 57) then Some (n - 48) else None.

Fixpoint digits (acc : Z) (s : string) : option Z :=
  match s with
  | EmptyString => Some acc
  | String c s' =>
      match digit c with
      | Some d => digits (10 * acc + d) s'
      | None => None
      end
  end.

Definition decimal (s : string) : option Z :=
  match s with
  | EmptyString => None
  | _ => digits 0 s
  end.

Definition get_readyz : http.Request :=
  {| http.Method := "GET"; http.Path := "/readyz" |}.

(** The start-up record of [plain] built as version [v0.2.1]. *)
Definition startup_record : slog.Record_ :=
  {| slog.handler := slog.TextHandler;
     slog.level := slog.LevelInfo;
     slog.msg := "Starting Libvirt provider server";
     slog.attrs :=
       [ ("version", slog.VString "v0.2.1");
         ("log_level", slog.VString "INFO");
         ("log_format", slog.VString EmptyString);
         ("port", slog.VInt 9443);
         ("health_port", slog.VInt 8080);
         ("capabilities", slog.VStrings capabilities);
         ("supported_platforms", slog.VStrings supported_platforms) ] |}.

(** A tracker over a counter as backend: [bump] starts a job, [jump]
    completes at once. *)
Definition bump : TaskTracker.operationFn nat :=
  fun b => (S b, TaskTracker.Started).
Definition jump : TaskTracker.operationFn nat :=
  fun b => ((b + 100)%nat, TaskTracker.Completed (TaskTracker.Ok None)).

Definition busy_calls : list (TaskTracker.Call nat) :=
  [ TaskTracker.CPoll 0%nat;
    TaskTracker.CRegister "other" jump;
    TaskTracker.CCancel 0%nat;
    TaskTracker.CEvict 1%nat;
    TaskTracker.CComplete 0%nat (TaskTracker.Err Unavailable);
    TaskTracker.CRegister "other" bump ].

(** A hypervisor with one running VM, under reference 0, and no guest
    agent; and an empty one. *)
Definition one_vm : Provider.Hypervisor :=
  {| Provider.vms := {[ 0%nat := {| Provider.name := "vm-a";
                                    Provider.power := Provider.PoweredOn |} ]};
     Provider.guest_agent := false |}.

Definition no_vm : Provider.Hypervisor :=
  {| Provider.vms := ∅; Provider.guest_agent := false |}.

(** A registration that completes at once, the eviction of its task,
    and a registration of the same key after it. *)
Definition first_registration : nat * TaskTracker.World nat :=
  TaskTracker.Register "k" jump (TaskTracker.init 0%nat).

Definition after_eviction : TaskTracker.World nat :=
  TaskTracker.steps [TaskTracker.CEvict first_registration.1]
    first_registration.2.

Definition second_registration : nat * TaskTracker.World nat :=
  TaskTracker.Register "k" bump after_eviction.

Definition provider_calls : list (TaskTracker.Call Provider.Hypervisor) :=
  [ TaskTracker.CRegister "vm-b/1/create"
      (Provider.operation (Provider.Create "vm-b"));
    TaskTracker.CPoll 0%nat;
    TaskTracker.CEvict 1%nat ].

(** A running resource that asks for a graceful power-off, and one
    whose deletion is requested. *)
Definition to_stop : Controller.Resource :=
  {| Controller.uid := "vm-a"; Controller.generation := 2;
     Controller.desired_power := Controller.OffGraceful;
     Controller.deletion_requested := false;
     Controller.lifecycle := Controller.LRunning;
     Controller.failed_generation := 0;
     Controller.vm_ref := Some 0%nat;
     Controller.observed_power := Some Provider.PoweredOn;
     Controller.conditions := [];
     Controller.active_task := None |}.

Definition to_delete : Controller.Resource :=
  {| Controller.uid := "vm-b"; Controller.generation := 3;
     Controller.desired_power := Controller.On;
     Controller.deletion_requested := true;
     Controller.lifecycle := Controller.LRunning;
     Controller.failed_generation := 0;
     Controller.vm_ref := Some 7%nat;
     Controller.observed_power := Some Provider.PoweredOn;
     Controller.conditions := [];
     Controller.active_task := None |}.

(** [P pre post] at every point of a trace: for every way of splitting
    it into the events that have happened and those still to come. *)
Fixpoint each_point (P : list Event -> list Event -> bool)
    (seen tr : list Event) : bool :=
  P seen tr &&
  match tr with
  | [] => true
  | e :: tr' => each_point P (seen ++ [e])%list tr'
  end.

(** The listener is created only once the empty service name has been
    set to serving. *)
Definition set_before_listen (pre post : list Event) : bool :=
  match post with
  | NetListen _ :: _ => existsb is_serving_set pre
  | _ => true
  end.

(** Once set to serving, the health check answers serving. *)
Definition serving_once_set (pre post : list Event) : bool :=
  implb (existsb is_serving_set pre)
    (bool_decide (HealthCheck pre EmptyString = Some health.SERVING)).

(** The health check does not answer not-serving. *)
Definition not_not_serving (pre post : list Event) : bool :=
  negb (bool_decide (HealthCheck pre EmptyString = Some health.NOT_SERVING)).

(** Once set to serving, no later event sets a status. *)
Definition unchanged_once_set (pre post : list Event) : bool :=
  match post with
  | e :: _ => implb (existsb is_serving_set pre) (negb (sets_status e))
  | [] => true
  end.

(** ** Reading a trace *)

(** The events of a run other than its log records: the calls. *)
Definition is_log (e : Event) : bool :=
  match e with Log _ => true | _ => false end.

Definition calls (tr : list Event) : list Event :=
  filter (fun e => negb (is_log e)) tr.

(** Whether two events are the same call (log records are not calls). *)
Definition same_call (a b : Event) : bool :=
  match a, b with
  | Printf s, Printf s' => String.eqb s s'
  | FlagError m, FlagError m' => String.eqb m m'
  | FlagUsage, FlagUsage => true
  | NotifyContext, NotifyContext => true
  | GrpcNewServer, GrpcNewServer => true
  | LibvirtNew, LibvirtNew => true
  | LibvirtNewServer, LibvirtNewServer => true
  | RegisterProviderServer, RegisterProviderServer => true
  | HealthNewServer, HealthNewServer => true
  | RegisterHealthServer, RegisterHealthServer => true
  | HealthSetServingStatus s st, HealthSetServingStatus s' st' =>
      String.eqb s s' && bool_decide (st = st')
  | NetListen a, NetListen a' => String.eqb a a'
  | HttpHandleFunc q, HttpHandleFunc q' => String.eqb q q'
  | HttpServer a, HttpServer a' => String.eqb a a'
  | GoGrpcServe, GoGrpcServe => true
  | GoHttpListenAndServe, GoHttpListenAndServe => true
  | GrpcGracefulStop, GrpcGracefulStop => true
  | HttpShutdown, HttpShutdown => true
  | SignalStop, SignalStop => true
  | _, _ => false
  end.

Definition has (a : Event) (tr : list Event) : bool := existsb (same_call a) tr.

Definition is_http_server (e : Event) : bool :=
  match e with HttpServer _ => true | _ => false end.

(** What has to have happened before each server goroutine is started:
    for the gRPC server, the provider and health services are registered
    and the listener exists; for the HTTP server, both endpoints are
    registered and the server is configured. *)
Definition ready_to_serve (pre post : list Event) : bool :=
  match post with
  | GoGrpcServe :: _ =>
      has RegisterProviderServer pre && has RegisterHealthServer pre
      && existsb is_listen pre
  | GoHttpListenAndServe :: _ =>
      has (HttpHandleFunc "/healthz") pre && has (HttpHandleFunc "/readyz") pre
      && existsb is_http_server pre
  | _ => true
  end.

(** The shutdown calls of [main] come in order, and only once both
    server goroutines are started. *)
Definition shutdown_ordered (pre post : list Event) : bool :=
  match post with
  | GrpcGracefulStop :: _ => has GoGrpcServe pre && has GoHttpListenAndServe pre
  | HttpShutdown :: _ => has GrpcGracefulStop pre
  | SignalStop :: _ => has HttpShutdown pre
  | _ => true
  end.

(** The line [--version] prints. *)
Definition banner (version_String : string) : string :=
  "virtrigaud-provider-libvirt " +:+ version_String +:+ nl.

(** More sample processes: one whose gRPC server fails while serving,
    under [LOG_LEVEL=error], and one started with a port. *)
Definition serve_fails : Process :=
  {| argv0 := "provider-libvirt"; arguments := [];
     environ := {[ "LOG_LEVEL" := "error" ]};
     listen := fun _ => None;
     serving := GrpcServeFailed "use of closed network connection";
     dependencies := unhealthy |}.

(** The error record of [serve_fails]. *)
Definition serve_error_record : slog.Record_ :=
  {| slog.handler := slog.TextHandler; slog.level := slog.LevelError;
     slog.msg := "Failed to serve gRPC";
     slog.attrs := [("error", slog.VError "use of closed network connection")] |}.

Definition with_port : Process :=
  {| argv0 := "provider-libvirt"; arguments := ["--port"; "7000"];
     environ := ∅; listen := fun _ => None;
     serving := Signalled; dependencies := unhealthy |}.

Definition with_health_port : Process :=
  {| argv0 := "provider-libvirt"; arguments := ["-health-port=8181"];
     environ := ∅; listen := fun _ => None;
     serving := Forever; dependencies := unhealthy |}.

Definition get_healthz : http.Request :=
  {| http.Method := "HEAD"; http.Path := "/healthz" |}.

(* ================================================================= *)
(** * Theorems *)

Section ProgramFacts.
Variable version_String : string.
Variable ParseInt : string -> option Z.

Lemma getLogLevel_cases env :
  getLogLevel env = slog.LevelDebug \/ getLogLevel env = slog.LevelWarn \/
  getLogLevel env = slog.LevelError \/ getLogLevel env = slog.LevelInfo.
Proof.
  unfold getLogLevel.
  repeat match goal with |- context [if ?b then _ else _] => destruct b end;
    auto.
Qed.

Lemma error_enabled env :
  slog.Enabled (newHandler env) slog.LevelError = true.
Proof.
  unfold newHandler, slog.Enabled.
  destruct (String.eqb _ _); cbn [slog.minLevel slog.NewJSONHandler slog.NewTextHandler];
    destruct (getLogLevel_cases env) as [-> | [-> | [-> | ->]]]; reflexivity.
Qed.

Lemma run_version p :
  is_version p = true ->
  run version_String ParseInt p =
    ([Printf ("virtrigaud-provider-libvirt " +:+ version_String +:+ nl)], Exit 0).
Proof.
  intros H. unfold run, main. rewrite H. reflexivity.
Qed.

Lemma info_enabled env :
  slog.Enabled (newHandler env) slog.LevelInfo
  = (getLogLevel env <=? slog.LevelInfo).
Proof. unfold newHandler. destruct (String.eqb _ _); reflexivity. Qed.

End ProgramFacts.

Lemma each_point_split P tr :
  forall seen, each_point P seen tr = true ->
  forall pre post, tr = (pre ++ post)%list -> P (seen ++ pre)%list post = true.
Proof.
  induction tr as [| e tr IH]; intros seen H pre post Heq.
  - symmetry in Heq. apply app_eq_nil in Heq as [-> ->].
    simpl in H. rewrite app_nil_r. destruct (P seen []); done.
  - simpl in H. apply andb_prop in H as [H0 H1].
    destruct pre as [| e' pre].
    + simpl in Heq. subst post. by rewrite app_nil_r.
    + simpl in Heq. injection Heq as <- ->.
      specialize (IH _ H1 pre post eq_refl).
      by rewrite <- app_assoc in IH.
Qed.

Lemma is_serving_set_inv e :
  is_serving_set e = true -> e = HealthSetServingStatus EmptyString health.SERVING.
Proof.
  destruct e; simpl; try discriminate.
  intros H. apply andb_prop in H as [H1 H2].
  apply String.eqb_eq in H1. apply bool_decide_eq_true in H2. by subst.
Qed.

Lemma existsb_serving_set tr :
  existsb is_serving_set tr = true <->
  In (HealthSetServingStatus EmptyString health.SERVING) tr.
Proof.
  rewrite existsb_exists. split.
  - intros (e & Hin & He). apply is_serving_set_inv in He. by subst.
  - intros Hin. eexists. split; [exact Hin | reflexivity].
Qed.

(** Reduction of the computations of [main] to the trace they build. *)
Ltac runM :=
  cbv beta iota delta
    [mbind M_bind mret M_ret emit when os_Exit block net_Listen
     logger_Error logger_Info logger_log serve app fmt_Printf].

(** The runs of [main], case by case: the version request, the flag
    errors, the failed listen, and the ways the serving phase ends, each
    with or without the records of level [Info]. *)
Ltac run_cases p :=
  unfold run, main;
  destruct (is_version p) eqn:Hversion;
  [ runM
  | unfold flag_Parse;
    destruct (flag.Parse _ CommandLine (arguments p))
      as [vals rest | m | ] eqn:Hparse;
    [ runM;
      match goal with
      | |- context [bool_decide (listen p ?a <> None)] =>
          destruct (listen p a) as [listen_err |] eqn:Hlisten
      end;
      [ rewrite bool_decide_true by done; runM;
        rewrite error_enabled; runM
      | rewrite bool_decide_false by (intros ?; done);
        destruct (slog.Enabled (newHandler (environ p)) slog.LevelInfo)
          eqn:Hinfo;
        runM; destruct (serving p) eqn:Hserving; runM;
        rewrite ?error_enabled; runM ]
    | runM
    | runM ] ].

(** ** The flag set *)
Section FlagFacts.
Variable ParseInt : string -> option Z.

Lemma set_Next vals name v rest vals' rest' :
  flag.set ParseInt vals name v rest = flag.Next vals' rest' -> rest' = rest.
Proof. unfold flag.set. destruct (ParseInt v); congruence. Qed.

(** A round of [parseOne] that goes on has consumed an argument. *)
Lemma parseOne_shrinks vals args vals' rest :
  flag.parseOne ParseInt vals args = flag.Next vals' rest ->
  (length rest < length args)%nat.
Proof.
  unfold flag.parseOne. intros H.
  repeat case_match; try discriminate; subst;
    apply set_Next in H; subst; simpl; lia.
Qed.

(** [Parse] never runs out of rounds. *)
Lemma parseLoop_enough n : forall vals args,
  (length args < n)%nat ->
  flag.parseLoop ParseInt n vals args
    = Some (flag.Parse ParseInt vals args).
Proof.
  induction n as [| n IH]; intros vals args Hn; [lia |].
  unfold flag.Parse.
  assert (Hsome : forall m vals args, (length args < m)%nat ->
            is_Some (flag.parseLoop ParseInt m vals args)).
  { clear. induction m as [| m IHm]; intros vals args Hm; [lia |].
    simpl. destruct (flag.parseOne ParseInt vals args) eqn:E; eauto.
    apply IHm. apply parseOne_shrinks in E. lia. }
  assert (Hmono : forall m vals args o,
            flag.parseLoop ParseInt m vals args = Some o ->
            forall m', (m <= m')%nat ->
            flag.parseLoop ParseInt m' vals args = Some o).
  { clear. induction m as [| m IHm]; intros vals args o H m' Hle;
      [discriminate |].
    destruct m' as [| m']; [lia |]. simpl in *.
    destruct (flag.parseOne ParseInt vals args); try done.
    eapply IHm; [done | lia]. }
  destruct (Hsome (S (length args)) vals args ltac:(lia)) as [o Ho].
  rewrite Ho. apply (Hmono _ _ _ _ Ho). lia.
Qed.

End FlagFacts.

Example parse_attached_and_detached :
  flag.Parse decimal CommandLine ["-port=7000"; "--health-port"; "81"; "x"]
  = flag.Parsed (<["health-port" := 81]> (<["port" := 7000]> CommandLine)) ["x"].
Proof. vm_compute. reflexivity. Qed.

Example parse_terminator :
  flag.Parse decimal CommandLine ["--"; "-port"; "1"]
  = flag.Parsed CommandLine ["-port"; "1"].
Proof. vm_compute. reflexivity. Qed.

Example parse_undefined :
  flag.Parse decimal CommandLine ["-port"; "1"; "--version"]
  = flag.Failed "flag provided but not defined: -version".
Proof. vm_compute. reflexivity. Qed.

Example parse_missing_value :
  flag.Parse decimal CommandLine ["-health-port"]
  = flag.Failed "flag needs an argument: -health-port".
Proof. vm_compute. reflexivity. Qed.

Example parse_help : flag.Parse decimal CommandLine ["-h"] = flag.Help.
Proof. vm_compute. reflexivity. Qed.

(** A later [--version] is an undefined flag: the run ends with status 2. *)
Example late_version_is_a_flag_error :
  (run "v0.2.1" decimal
     {| argv0 := "provider-libvirt"; arguments := ["-port"; "1"; "--version"];
        environ := ∅; listen := fun _ => None; serving := Signalled;
        dependencies := unhealthy |}).2 = Exit 2.
Proof. vm_compute. reflexivity. Qed.

(** With [LOG_LEVEL=warn] the start-up records are not written. *)
Example quiet_run :
  (run "v0.2.1" decimal
     {| argv0 := "provider-libvirt"; arguments := ["-port"; "7000"];
        environ := {[ "LOG_LEVEL" := "warn" ]};
        listen := fun _ => None; serving := Signalled;
        dependencies := unhealthy |})
  = ([NotifyContext; GrpcNewServer; LibvirtNew; LibvirtNewServer;
      RegisterProviderServer; HealthNewServer; RegisterHealthServer;
      HealthSetServingStatus EmptyString health.SERVING;
      NetListen ":7000"; HttpHandleFunc "/healthz"; HttpHandleFunc "/readyz";
      HttpServer ":8080"; GoGrpcServe; GoHttpListenAndServe;
      GrpcGracefulStop; HttpShutdown; SignalStop], Ret tt).
Proof. vm_compute. reflexivity. Qed.

Example other_paths_not_found :
  http.status (respond unhealthy {| http.Method := "GET"; http.Path := "/" |})
  = Some http.StatusNotFound.
Proof. reflexivity. Qed.

(** Where retention ends the guarantee: once the task of a key is
    evicted, the key is new again and its operation is invoked. *)
Example register_after_eviction :
  let w1 := (TaskTracker.Register "k" jump (TaskTracker.init 0%nat)).2 in
  let w2 := TaskTracker.Evict 0%nat w1 in
  TaskTracker.Poll 0%nat w2 = TaskTracker.Evicted /\
  (TaskTracker.Register "k" jump w2).1 = 1%nat /\
  TaskTracker.invoked (TaskTracker.Register "k" jump w2).2 = ["k"; "k"].
Proof. vm_compute. repeat split. Qed.

(** ** The entry point *)
Section MainProgram.
Variable version_String : string.
Variable ParseInt : string -> option Z.


(** C6.  [getLogLevel] returns [LevelDebug] exactly when [LOG_LEVEL] is
    [debug], [LevelWarn] exactly when it is [warn], [LevelError]
    exactly when it is [error], and [LevelInfo] for every other value,
    among them the unset variable, the empty value and [info]. *)
Theorem getLogLevel_exact (env : gmap string string) :
  let v := os.Getenv env "LOG_LEVEL" in
  (getLogLevel env = slog.LevelDebug <-> v = "debug") /\
  (getLogLevel env = slog.LevelWarn <-> v = "warn") /\
  (getLogLevel env = slog.LevelError <-> v = "error") /\
  (getLogLevel env = slog.LevelInfo <->
     v <> "debug" /\ v <> "warn" /\ v <> "error") /\
  getLogLevel (delete "LOG_LEVEL" env) = slog.LevelInfo /\
  getLogLevel (<["LOG_LEVEL" := EmptyString]> env) = slog.LevelInfo /\
  getLogLevel (<["LOG_LEVEL" := "info"]> env) = slog.LevelInfo.
Proof.
  cbv zeta.
  assert (Hcases : forall v : string,
    ((if String.eqb v "debug" then slog.LevelDebug
      else if String.eqb v "warn" then slog.LevelWarn
      else if String.eqb v "error" then slog.LevelError
      else slog.LevelInfo) = slog.LevelDebug <-> v = "debug") /\
    ((if String.eqb v "debug" then slog.LevelDebug
      else if String.eqb v "warn" then slog.LevelWarn
      else if String.eqb v "error" then slog.LevelError
      else slog.LevelInfo) = slog.LevelWarn <-> v = "warn") /\
    ((if String.eqb v "debug" then slog.LevelDebug
      else if String.eqb v "warn" then slog.LevelWarn
      else if String.eqb v "error" then slog.LevelError
      else slog.LevelInfo) = slog.LevelError <-> v = "error") /\
    ((if String.eqb v "debug" then slog.LevelDebug
      else if String.eqb v "warn" then slog.LevelWarn
      else if String.eqb v "error" then slog.LevelError
      else slog.LevelInfo) = slog.LevelInfo <->
       v <> "debug" /\ v <> "warn" /\ v <> "error")).
  { intros v.
    destruct (String.eqb_spec v "debug") as [-> | Hd];
      [ intuition (discriminate || congruence) |].
    destruct (String.eqb_spec v "warn") as [-> | Hw];
      [ intuition (discriminate || congruence) |].
    destruct (String.eqb_spec v "error") as [-> | He];
      [ intuition (discriminate || congruence) |].
    intuition (discriminate || congruence). }
  destruct (Hcases (os.Getenv env "LOG_LEVEL")) as (H1 & H2 & H3 & H4).
  refine (conj H1 (conj H2 (conj H3 (conj H4 _)))).
  unfold getLogLevel, os.Getenv.
  rewrite lookup_delete_eq, !lookup_insert_eq. done.
Qed.

Lemma no_arguments_not_version p : arguments p = [] -> is_version p = false.
Proof. intros H. unfold is_version, os_Args. rewrite H. reflexivity. Qed.

Lemma version_argument p rest :
  arguments p = "--version" :: rest -> is_version p = true.
Proof.
  intros H. unfold is_version, os_Args. rewrite H. simpl length.
  rewrite andb_true_iff. split; [| reflexivity].
  apply Z.ltb_lt. lia.
Qed.

Lemma Parse_nil vals : flag.Parse ParseInt vals [] = flag.Parsed vals [].
Proof. reflexivity. Qed.

Lemma handler_kind env :
  slog.kind (newHandler env) =
    if String.eqb (os.Getenv env "LOG_FORMAT") "json"
    then slog.JSONHandler else slog.TextHandler.
Proof. unfold newHandler. by destruct (String.eqb _ _). Qed.

Lemma handler_exact env :
  (slog.kind (newHandler env) = slog.JSONHandler <->
   os.Getenv env "LOG_FORMAT" = "json") /\
  (slog.kind (newHandler env) = slog.TextHandler <->
   os.Getenv env "LOG_FORMAT" <> "json").
Proof.
  rewrite handler_kind.
  destruct (String.eqb_spec (os.Getenv env "LOG_FORMAT") "json");
    intuition (discriminate || congruence).
Qed.

(** Every record of a run carries the handler chosen at start-up. *)
Lemma records_through_handler (p : Process) (r : slog.Record_) :
  In (Log r) (run version_String ParseInt p).1 ->
  slog.handler r = slog.kind (newHandler (environ p)).
Proof.
  run_cases p; cbn [fst]; intros Hin; simpl in Hin;
    repeat match goal with
           | H : _ \/ _ |- _ => destruct H as [H | H]
           end; try discriminate; try contradiction;
    injection Hin as <-; reflexivity.
Qed.

(** C7.  Without command-line flags the gRPC port is 9443 and the
    health port 8080: the flags keep these defaults, the process listens
    on [:9443] and its HTTP health server is bound to [:8080].  Whatever
    the flags, the logger's handler is the JSON one exactly when
    [LOG_FORMAT] is [json] and the text one for every other value, and
    every record of the run goes through it. *)
Theorem defaults_without_flags (p : Process) :
  (arguments p = [] ->
   flag_Parse ParseInt p [] = ([], Ret CommandLine) /\
   flagValue CommandLine "port" = 9443 /\
   flagValue CommandLine "health-port" = 8080 /\
   In (NetListen ":9443") (run version_String ParseInt p).1 /\
   (listen p ":9443" = None ->
    In (HttpServer ":8080") (run version_String ParseInt p).1)) /\
  (slog.kind (newHandler (environ p)) = slog.JSONHandler <->
   os.Getenv (environ p) "LOG_FORMAT" = "json") /\
  (slog.kind (newHandler (environ p)) = slog.TextHandler <->
   os.Getenv (environ p) "LOG_FORMAT" <> "json") /\
  (forall r, In (Log r) (run version_String ParseInt p).1 ->
             slog.handler r = slog.kind (newHandler (environ p))).
Proof.
  split; [| pose proof (handler_exact (environ p)) as [Hj Ht];
            split; [exact Hj | split; [exact Ht |]];
            apply records_through_handler ].
  intros Hargs.
  pose proof (no_arguments_not_version p Hargs) as Hv.
  assert (Hp : flag.Parse ParseInt CommandLine (arguments p)
               = flag.Parsed CommandLine []) by (rewrite Hargs; apply Parse_nil).
  split; [unfold flag_Parse; rewrite Hp; reflexivity |].
  split; [reflexivity |]. split; [reflexivity |].
  run_cases p; simplify_eq;
    change (":" +:+ itoa (flagValue CommandLine "port")) with ":9443" in *;
    change (":" +:+ itoa (flagValue CommandLine "health-port"))
      with ":8080" in *;
    cbn [fst];
    (split; [simpl; tauto |]);
    first [ intros Hn; congruence | intros _; simpl; tauto ].
Qed.

(** C8.  When the first command-line argument is exactly [--version],
    the run consists of one event, the print of
    [virtrigaud-provider-libvirt], a space, the version string and a
    line feed, followed by exit status 0: no flag is parsed and no gRPC
    server, listener or HTTP server is created. *)
Theorem version_request (p : Process) (rest : list string) :
  arguments p = "--version" :: rest ->
  run version_String ParseInt p =
    ([Printf ("virtrigaud-provider-libvirt " +:+ version_String +:+ nl)],
     Exit 0).
Proof.
  intros H. apply run_version. by eapply version_argument.
Qed.

(** C10.  If the run listens on an address and the listen fails, the
    run ends right after it with the error record [Failed to listen]
    and exit status 1, and neither server goroutine is started. *)
Theorem listen_failure (p : Process) (address err : string) :
  In (NetListen address) (run version_String ParseInt p).1 ->
  listen p address = Some err ->
  (exists pre,
     (run version_String ParseInt p).1 =
       (pre ++ [ NetListen address;
                 Log {| slog.handler := slog.kind (newHandler (environ p));
                        slog.level := slog.LevelError;
                        slog.msg := "Failed to listen";
                        slog.attrs := [("error", slog.VError err)] |} ])%list
     /\ forallb (fun e => negb (is_listen e)) pre = true) /\
  (run version_String ParseInt p).2 = Exit 1 /\
  ~ In GoGrpcServe (run version_String ParseInt p).1 /\
  ~ In GoHttpListenAndServe (run version_String ParseInt p).1.
Proof.
  intros Hin Hfail. revert Hin.
  run_cases p; cbn [fst snd]; intros Hin; simpl in Hin;
    repeat match goal with
           | H : _ \/ _ |- _ => destruct H as [H | H]
           end; try discriminate; try contradiction;
    simplify_eq.
  split; [| split; [reflexivity | split]].
  - eexists [_; _; _; _; _; _; _; _]. split; reflexivity.
  - simpl. intros H.
    repeat match goal with
           | H : _ \/ _ |- _ => destruct H as [H | H]
           end; try discriminate; contradiction.
  - simpl. intros H.
    repeat match goal with
           | H : _ \/ _ |- _ => destruct H as [H | H]
           end; try discriminate; contradiction.
Qed.


(** C9.  A run that gets past the flags sets the empty service name to
    [SERVING] and creates the listener right after it, not before, sets
    no status later, and ends with the health check answering
    [SERVING].  In every run the status is set before the listener is
    created; from then on the health check answers [SERVING] at every
    point, no later event sets a status, and at no point of any run does
    the health check answer [NOT_SERVING], whatever the state of the
    dependencies. *)
Theorem health_always_serving (p : Process) :
  let tr := (run version_String ParseInt p).1 in
  (forall vals rest,
     is_version p = false ->
     flag.Parse ParseInt CommandLine (arguments p) = flag.Parsed vals rest ->
     exists pre post,
       tr = (pre ++ HealthSetServingStatus EmptyString health.SERVING
                 :: NetListen (":" +:+ itoa (flagValue vals "port"))
                 :: post)%list /\
       forallb (fun e => negb (is_listen e)) pre = true /\
       forallb (fun e => negb (sets_status e)) post = true /\
       HealthCheck tr EmptyString = Some health.SERVING) /\
  (forall pre address post,
     tr = (pre ++ NetListen address :: post)%list ->
     In (HealthSetServingStatus EmptyString health.SERVING) pre) /\
  (forall pre post,
     tr = (pre ++ post)%list ->
     In (HealthSetServingStatus EmptyString health.SERVING) pre ->
     HealthCheck pre EmptyString = Some health.SERVING) /\
  (forall pre e post,
     tr = (pre ++ e :: post)%list ->
     In (HealthSetServingStatus EmptyString health.SERVING) pre ->
     sets_status e = false) /\
  (forall pre post,
     tr = (pre ++ post)%list ->
     HealthCheck pre EmptyString <> Some health.NOT_SERVING).
Proof.
  intros tr.
  assert (H : each_point
                (fun pre post =>
                   set_before_listen pre post && serving_once_set pre post
                   && unchanged_once_set pre post && not_not_serving pre post)
                [] tr = true).
  { subst tr. run_cases p; vm_compute; reflexivity. }
  pose proof (each_point_split _ _ _ H) as Hsplit. simpl in Hsplit.
  split; [| repeat split].
  - intros vs rs Hv Hp. subst tr. clear H Hsplit.
    run_cases p; simplify_eq; cbn [fst];
      eexists [_; _; _; _; _; _; _], _;
      (split; [reflexivity |]); (split; [reflexivity |]);
      (split; [reflexivity |]); vm_compute; reflexivity.
  - intros pre address post Heq.
    specialize (Hsplit _ _ Heq).
    rewrite !andb_true_iff in Hsplit. destruct Hsplit as [[[H1 _] _] _].
    by apply existsb_serving_set.
  - intros pre post Heq Hin.
    specialize (Hsplit _ _ Heq).
    rewrite !andb_true_iff in Hsplit. destruct Hsplit as [[[_ H2] _] _].
    unfold serving_once_set in H2.
    apply existsb_serving_set in Hin. rewrite Hin in H2. simpl in H2.
    by apply bool_decide_eq_true in H2.
  - intros pre e post Heq Hin.
    specialize (Hsplit _ _ Heq).
    rewrite !andb_true_iff in Hsplit. destruct Hsplit as [[_ H3] _].
    unfold unchanged_once_set in H3.
    apply existsb_serving_set in Hin. rewrite Hin in H3. simpl in H3.
    by apply negb_true_iff in H3.
  - intros pre post Heq.
    specialize (Hsplit _ _ Heq).
    rewrite !andb_true_iff in Hsplit. destruct Hsplit as [_ H4].
    unfold not_not_serving in H4. apply negb_true_iff in H4.
    by apply bool_decide_eq_false in H4.
Qed.


(** C1 (as amended).  The start-up record of the provider lists its
    features as [core], [snapshots], [linked-clones],
    [online-reconfigure] and [qemu-guest-agent]: of the tokens the
    vocabulary names it has the first three, guest-cooperative
    shutdown appears as [qemu-guest-agent], and [guest-agent] is not
    in the list. *)
Theorem advertised_capabilities (p : Process) (r : slog.Record_) :
  In (Log r) (run version_String ParseInt p).1 ->
  slog.msg r = "Starting Libvirt provider server" ->
  In ("capabilities",
      slog.VStrings [ "core"; "snapshots"; "linked-clones";
                      "online-reconfigure"; "qemu-guest-agent" ])
     (slog.attrs r) /\
  filter (fun c => bool_decide (In c vocabulary)) capabilities
    = [ "snapshots"; "linked-clones"; "online-reconfigure" ] /\
  In "qemu-guest-agent" capabilities /\
  ~ In "guest-agent" capabilities.
Proof.
  intros Hin Hmsg.
  split; [| split; [| split]].
  - revert Hin. run_cases p; cbn [fst]; intros Hin; simpl in Hin;
      repeat match goal with
             | H : _ \/ _ |- _ => destruct H as [H | H]
             end; try discriminate; try contradiction;
      simplify_eq; try discriminate Hmsg; simpl; tauto.
  - vm_compute. reflexivity.
  - simpl. tauto.
  - simpl. intros H.
    repeat match goal with
           | H : _ \/ _ |- _ => destruct H as [H | H]
           end; try discriminate; contradiction.
Qed.

(** C3 (as amended).  For every request to [/readyz], whatever the
    state of the dependencies, the answer has status 200; its body is
    [ready], except that the answer to a [HEAD] request has no body. *)
Theorem readyz_unconditional (d : Dependencies) (r : http.Request) :
  http.Path r = "/readyz" ->
  http.status (respond d r) = Some http.StatusOK /\
  http.body (respond d r)
    = (if String.eqb (http.Method r) "HEAD" then EmptyString else "ready").
Proof.
  intros H. unfold respond, http.ServeHTTP. rewrite H.
  cbn. unfold http.fresh, http.Write, http.WriteHeader. cbn.
  by destruct (String.eqb (http.Method r) "HEAD").
Qed.

End MainProgram.

(** C1, counterexample: the token [guest-agent] is not among the
    capabilities the provider lists. *)
Lemma guest_agent_not_listed : ~ In "guest-agent" capabilities.
Proof.
  simpl. intros H.
  repeat match goal with
         | H : _ \/ _ |- _ => destruct H as [H | H]
         end; try discriminate; contradiction.
Qed.

(** C3, counterexample: with both dependencies down, [/readyz] still
    reports ready. *)
Lemma ready_while_unhealthy :
  healthy unhealthy = false /\
  reports_ready (respond unhealthy get_readyz) = true /\
  ~ readiness_tracks_dependencies.
Proof.
  split; [reflexivity |]. split; [reflexivity |].
  intros H. specialize (H unhealthy get_readyz eq_refl eq_refl). discriminate.
Qed.

(** ** The task tracker *)
Section TrackerFacts.
Import TaskTracker.
Context {Backend : Type}.
Implicit Types (w : World Backend) (f g : operationFn Backend).

Lemma key_launched k l : key (launched k l) = k.
Proof. by destruct l. Qed.

Lemma Register_hit k f w h :
  by_key w !! k = Some h -> Register k f w = (h, w).
Proof. intros H. unfold Register. by rewrite H. Qed.

Lemma Register_registered k f w :
  by_key (Register k f w).2 !! k = Some (Register k f w).1.
Proof.
  unfold Register. destruct (by_key w !! k) eqn:E; [done |].
  destruct (f (backend w)). simpl. apply lookup_insert_eq.
Qed.

Lemma init_consistent (b : Backend) : consistent (init b).
Proof. split; simpl; intros *; by rewrite lookup_empty. Qed.

Lemma Register_consistent k f w :
  consistent w -> consistent (Register k f w).2.
Proof.
  intros [H1 H2 H3]. unfold Register.
  destruct (by_key w !! k) eqn:E; [by split |].
  destruct (f (backend w)) as [b' l]. split; cbn [snd by_key tasks next].
  - intros h t. rewrite lookup_insert. case_decide as Hh.
    + intros [= <-]. rewrite key_launched. subst. apply lookup_insert_eq.
    + intros Ht. rewrite lookup_insert_ne; [by apply H1 |].
      intros Hk. apply H1 in Ht. congruence.
  - intros k0 h. rewrite lookup_insert. case_decide as Hk.
    + intros [= <-]. subst. rewrite lookup_insert_eq.
      eexists. split; [done | apply key_launched].
    + intros Hk0. destruct (H2 _ _ Hk0) as (t & Ht & Hkey).
      exists t. split; [| done]. rewrite lookup_insert_ne; [done |].
      apply H3 in Ht. lia.
  - intros h t. rewrite lookup_insert. case_decide.
    + intros _. lia.
    + intros Ht. apply H3 in Ht. lia.
Qed.

Lemma update_consistent w h t t' :
  consistent w -> tasks w !! h = Some t -> key t' = key t ->
  consistent (with_tasks _ w (<[h := t']> (tasks w))).
Proof.
  intros [H1 H2 H3] Ht Hkey. split; simpl.
  - intros h0 t0. rewrite lookup_insert. case_decide.
    + intros [= <-]. subst. rewrite Hkey. by apply H1.
    + apply H1.
  - intros k0 h0 Hk0. destruct (H2 _ _ Hk0) as (t0 & Ht0 & Hkey0).
    rewrite lookup_insert. case_decide.
    + subst. exists t'. split; [done |]. congruence.
    + by exists t0.
  - intros h0 t0. rewrite lookup_insert. case_decide.
    + intros _. subst. by eapply H3.
    + apply H3.
Qed.

Lemma Cancel_consistent h w : consistent w -> consistent (Cancel h w).
Proof.
  intros Hc. unfold Cancel. destruct (tasks w !! h) as [t |] eqn:E; [| done].
  destruct (terminal (phase t)); [done |].
  by eapply update_consistent.
Qed.

Lemma Complete_consistent h o w : consistent w -> consistent (Complete h o w).
Proof.
  intros Hc. unfold Complete. destruct (tasks w !! h) as [t |] eqn:E; [| done].
  destruct (terminal (phase t)); [done |].
  by eapply update_consistent.
Qed.

Lemma Evict_consistent h w : consistent w -> consistent (Evict h w).
Proof.
  intros [H1 H2 H3]. unfold Evict.
  destruct (tasks w !! h) as [t |] eqn:E; [| by split].
  destruct (terminal (phase t)); [| by split].
  split; simpl.
  - intros h0 t0. rewrite lookup_delete. case_decide; [done |].
    intros Ht0. rewrite lookup_delete_ne; [by apply H1 |].
    intros Hk. apply H1 in E. apply H1 in Ht0. congruence.
  - intros k0 h0. rewrite lookup_delete. case_decide; [done |].
    intros Hk0. destruct (H2 _ _ Hk0) as (t0 & Ht0 & Hkey0).
    exists t0. split; [| done]. rewrite lookup_delete_ne; [done |].
    intros Hh. congruence.
  - intros h0 t0. rewrite lookup_delete. case_decide; [done |]. apply H3.
Qed.

Lemma step_consistent w c : consistent w -> consistent (step w c).
Proof.
  destruct c; simpl; auto using Register_consistent, Cancel_consistent,
    Complete_consistent, Evict_consistent.
Qed.

(** A call that does not evict the task of a key leaves the key
    registered under its handle. *)
Lemma step_keeps_key w c k h :
  consistent w -> by_key w !! k = Some h -> evicts h c = false ->
  by_key (step w c) !! k = Some h.
Proof.
  intros Hc Hk He. destruct c as [k' f | h' | h' | h' o | h']; simpl.
  - unfold Register. destruct (by_key w !! k') eqn:E; [done |].
    destruct (f (backend w)). simpl.
    rewrite lookup_insert_ne; [done | congruence].
  - done.
  - unfold Cancel. destruct (tasks w !! h'); [| done].
    by destruct (terminal _).
  - unfold Complete. destruct (tasks w !! h'); [| done].
    by destruct (terminal _).
  - unfold Evict. destruct (tasks w !! h') as [t |] eqn:E; [| done].
    destruct (terminal _); [| done]. simpl.
    rewrite lookup_delete_ne; [done |].
    intros Hkk. destruct Hc as [H1 _ _]. apply H1 in E.
    simpl in He. apply bool_decide_eq_false in He. congruence.
Qed.

Lemma steps_keep_key cs : forall w k h,
  consistent w -> by_key w !! k = Some h -> retained h cs = true ->
  by_key (steps cs w) !! k = Some h.
Proof.
  induction cs as [| c cs IH]; intros w k h Hc Hk Hr; [done |].
  simpl in Hr. apply andb_prop in Hr as [Hc1 Hr].
  apply negb_true_iff in Hc1. simpl.
  apply IH; [by apply step_consistent | by apply step_keeps_key | done].
Qed.

End TrackerFacts.

(** ** Idempotent registration, deletion and the power-off fallback *)
Section ProtocolClaims.
Import TaskTracker.


Import Controller.

Lemma merge_desired k o r : desired_power (merge k o r) = desired_power r.
Proof. by destruct k. Qed.

Lemma fallback_operation caps target :
  guest_agent ∉ caps ->
  power_operation caps target <> Some KPowerOffGraceful.
Proof.
  intros Hno. destruct target; simpl; try done.
  rewrite bool_decide_false by done. done.
Qed.

Lemma plan_not_graceful caps r :
  guest_agent ∉ caps -> plan caps r <> Some KPowerOffGraceful.
Proof.
  intros Hno. unfold plan.
  repeat match goal with
         | |- context [if ?b then _ else _] => destruct b
         | |- context [match vm_ref r with _ => _ end] => destruct (vm_ref r)
         end; try done; by apply fallback_operation.
Qed.

Lemma issue_not_graceful caps r w :
  guest_agent ∉ caps -> ~ In KPowerOffGraceful (issued_kinds (issue caps r w)).
Proof.
  intros Hno. unfold issue, issued_kinds.
  pose proof (plan_not_graceful caps r Hno) as Hp.
  destruct (plan caps r) as [k |]; [| simpl; tauto].
  destruct (rpc_of k r); [| simpl; tauto].
  destruct (Provider.call _ _ _). simpl. intros [Hk | []]. congruence.
Qed.

(** C2.  For a resource that asks for [OffGraceful], bound to a provider
    whose capability set lacks [guest-agent]: the operation chosen is
    the hard power-off; no reconcile pass issues a graceful power-off;
    and a pass over the running VM, with no task in flight, issues the
    hard power-off at once, through the provider, under the key of
    that operation. *)
Theorem graceful_falls_back (caps : gset string) (r : Resource)
    (w : World Provider.Hypervisor) :
  desired_power r = OffGraceful ->
  guest_agent ∉ caps ->
  power_operation caps (desired_power r) = Some KPowerOff /\
  ~ In KPowerOffGraceful (issued_kinds (Reconcile caps r w)) /\
  (forall ref,
     active_task r = None -> deletion_requested r = false ->
     lifecycle r <> LFailed -> vm_ref r = Some ref ->
     observed_power r = Some Provider.PoweredOn ->
     let sent := Provider.call (Provider.PowerOff ref) (task_key r KPowerOff) w in
     Reconcile caps r w
       = (with_status r (lifecycle r) (vm_ref r) (observed_power r)
            (conditions r) (Some (sent.1, KPowerOff)),
          sent.2,
          [ {| issued_kind := KPowerOff;
               issued_key := task_key r KPowerOff |} ])).
Proof.
  intros Hd Hno. split; [| split].
  - rewrite Hd. simpl. by rewrite bool_decide_false.
  - unfold Reconcile. destruct (active_task r) as [[h k] |];
      [| by apply issue_not_graceful].
    destruct (Poll h w) as [[] o |]; try (simpl; tauto).
    + by apply issue_not_graceful.
    + destruct o as [[] |]; simpl; tauto.
  - intros ref Ht Hdel Hl Href Hobs. cbv zeta.
    unfold Reconcile. rewrite Ht. unfold issue, plan.
    rewrite Hdel, Href, Hobs, Hd. rewrite bool_decide_false by done.
    simpl. rewrite bool_decide_false by done.
    unfold rpc_of. rewrite Href.
    destruct (Provider.call _ _ _) as [h w'] eqn:E. simpl.
    rewrite ?Href, ?Hobs. reflexivity.
Qed.

(** C5.  Deleting a VM that the backend does not have, under a new
    key, gives a task that is terminal right away with phase
    [Succeeded], and leaves the backend as it was.  For a resource to
    delete whose VM is absent, the first pass issues the delete and
    the next one completes with status [Deleted], the conditions
    unchanged, so that no error condition is set; the policy equally
    treats a [NotFound] failure of a delete as success. *)
Theorem delete_absent (caps : gset string) (r : Resource)
    (w : World Provider.Hypervisor) (ref : nat) (idempotencyKey : string) :
  Provider.vms (backend w) !! ref = None ->
  by_key w !! idempotencyKey = None ->
  by_key w !! task_key r KDelete = None ->
  deletion_requested r = true ->
  vm_ref r = Some ref ->
  active_task r = None ->
  lifecycle r <> Deleted ->
  (let sent := Provider.call (Provider.Delete ref) idempotencyKey w in
   Poll sent.1 sent.2 = Known Succeeded (Some (Ok None)) /\
   backend sent.2 = backend w) /\
  (let first := Reconcile caps r w in
   let second := Reconcile caps first.1.1 first.1.2 in
   issued_kinds first = [KDelete] /\
   lifecycle first.1.1 = Deleting /\
   issued_kinds second = [] /\
   lifecycle second.1.1 = Deleted /\
   active_task second.1.1 = None /\
   conditions second.1.1 = conditions r) /\
  lifecycle (failed KDelete NotFound r) = Deleted /\
  conditions (failed KDelete NotFound r) = conditions r.
Proof.
  intros Habsent Hnew Hkey Hdel Href Ht Hl.
  assert (Hop : Provider.operation (Provider.Delete ref) (backend w)
                = (backend w, Completed (Ok None))).
  { unfold Provider.operation, Provider.backend_delete. by rewrite Habsent. }
  split; [| split; [| done]].
  - cbv zeta. unfold Provider.call, Register. rewrite Hnew, Hop. simpl.
    unfold Poll. simpl. rewrite lookup_insert_eq. done.
  - cbv zeta.
    assert (H1 : Reconcile caps r w
              = (with_status r Deleting (vm_ref r) (observed_power r)
                   (conditions r) (Some (next w, KDelete)),
                 (Provider.call (Provider.Delete ref) (task_key r KDelete) w).2,
                 [ {| issued_kind := KDelete;
                      issued_key := task_key r KDelete |} ])).
    { unfold Reconcile. rewrite Ht. unfold issue, plan. rewrite Hdel.
      rewrite bool_decide_false by done. unfold rpc_of. rewrite Href.
      unfold Provider.call, Register. rewrite Hkey, Hop. reflexivity. }
    rewrite H1. cbn [fst snd issued_kinds map issued_kind].
    unfold Reconcile. cbn [active_task with_status].
    unfold Provider.call, Register. rewrite Hkey, Hop. cbn [snd].
    unfold Poll. cbn [tasks]. rewrite lookup_insert_eq.
    cbn [phase outcome launched settle].
    unfold issue, plan. cbn [merge with_status deletion_requested lifecycle].
    rewrite Hdel. rewrite bool_decide_true by done.
    repeat split.
Qed.

End ProtocolClaims.


(** ** The theorems at sample inputs *)

Lemma defaults_without_flags_plain :
  arguments plain = [] /\
  In (NetListen ":9443") (run "v0.2.1" no_int plain).1 /\
  In (HttpServer ":8080") (run "v0.2.1" no_int plain).1.
Proof.
  split; [reflexivity |].
  destruct (proj1 (defaults_without_flags "v0.2.1" no_int plain) eq_refl)
    as (_ & _ & _ & Hl & Hh).
  split; [exact Hl | exact (Hh eq_refl)].
Defined.

Lemma version_request_asks_version :
  arguments asks_version = ["--version"; "-port"; "1"] /\
  run "v0.2.1" no_int asks_version
    = ([Printf ("virtrigaud-provider-libvirt v0.2.1" +:+ nl)], Exit 0).
Proof.
  split; [reflexivity |].
  exact (version_request "v0.2.1" no_int asks_version ["-port"; "1"] eq_refl).
Defined.

Lemma listen_failure_port_taken :
  listen port_taken ":9443" = Some "address already in use" /\
  (run "v0.2.1" no_int port_taken).2 = Exit 1.
Proof.
  split; [reflexivity |].
  refine (proj1 (proj2 (listen_failure "v0.2.1" no_int port_taken ":9443"
                          "address already in use" _ eq_refl))).
  vm_compute. tauto.
Defined.

Lemma advertised_capabilities_plain :
  In (Log startup_record) (run "v0.2.1" no_int plain).1 /\
  In ("capabilities",
      slog.VStrings [ "core"; "snapshots"; "linked-clones";
                      "online-reconfigure"; "qemu-guest-agent" ])
     (slog.attrs startup_record).
Proof.
  assert (H : In (Log startup_record) (run "v0.2.1" no_int plain).1)
    by (vm_compute; tauto).
  split; [exact H |].
  exact (proj1 (advertised_capabilities "v0.2.1" no_int plain startup_record
                  H eq_refl)).
Defined.

Lemma health_always_serving_plain :
  is_version plain = false /\
  In (HealthSetServingStatus EmptyString health.SERVING)
     (run "v0.2.1" no_int plain).1 /\
  HealthCheck (run "v0.2.1" no_int plain).1 EmptyString = Some health.SERVING.
Proof.
  split; [reflexivity |].
  destruct (proj1 (health_always_serving "v0.2.1" no_int plain)
              CommandLine [] eq_refl eq_refl)
    as (pre & post & Heq & _ & _ & Hc).
  split; [| exact Hc].
  rewrite Heq. apply in_or_app. right. left. reflexivity.
Defined.

Lemma readyz_unconditional_unhealthy :
  http.Path get_readyz = "/readyz" /\
  http.status (respond unhealthy get_readyz) = Some 200 /\
  http.body (respond unhealthy get_readyz) = "ready".
Proof.
  split; [reflexivity |].
  exact (readyz_unconditional unhealthy get_readyz eq_refl).
Defined.


Lemma libvirt_lacks_guest_agent :
  Controller.guest_agent ∉ (list_to_set capabilities : gset string).
Proof.
  apply (bool_decide_unpack _). vm_compute. exact I.
Defined.

Lemma graceful_falls_back_libvirt :
  Controller.desired_power to_stop = Controller.OffGraceful /\
  Controller.issued_kinds
    (Controller.Reconcile (list_to_set capabilities) to_stop
       (TaskTracker.init one_vm))
  = [Controller.KPowerOff].
Proof.
  split; [reflexivity |].
  destruct (graceful_falls_back (list_to_set capabilities) to_stop
              (TaskTracker.init one_vm) eq_refl libvirt_lacks_guest_agent)
    as (_ & _ & H).
  rewrite (H 0%nat eq_refl eq_refl ltac:(discriminate) eq_refl eq_refl).
  reflexivity.
Defined.

Lemma delete_absent_gone :
  Provider.vms (TaskTracker.backend (TaskTracker.init no_vm)) !! 7%nat = None /\
  Controller.lifecycle
    (Controller.Reconcile ∅
       (Controller.Reconcile ∅ to_delete (TaskTracker.init no_vm)).1.1
       (Controller.Reconcile ∅ to_delete (TaskTracker.init no_vm)).1.2).1.1
  = Controller.Deleted.
Proof.
  split; [reflexivity |].
  destruct (delete_absent ∅ to_delete (TaskTracker.init no_vm) 7%nat
              "vm-b/3/delete" eq_refl eq_refl eq_refl eq_refl eq_refl eq_refl
              ltac:(discriminate))
    as (_ & (_ & _ & _ & H & _) & _).
  exact H.
Defined.

(** ** Further properties of the entry point *)

Lemma same_call_eq a b : same_call a b = true -> a = b.
Proof.
  destruct a, b; simpl; try discriminate; try done;
    rewrite ?andb_true_iff, ?String.eqb_eq, ?bool_decide_eq_true;
    intuition congruence.
Qed.

Lemma has_In a tr : has a tr = true -> In a tr.
Proof.
  unfold has. rewrite existsb_exists.
  intros (e & Hin & He). apply same_call_eq in He. by subst.
Qed.

Lemma is_version_first p :
  is_version p = true <-> exists rest, arguments p = "--version" :: rest.
Proof.
  unfold is_version, os_Args. destruct (arguments p) as [| a rest].
  - split; [discriminate | intros [? ?]; discriminate].
  - rewrite andb_true_iff, Z.ltb_lt, String.eqb_eq. cbn [nth length]. split.
    + intros [_ ->]. by eexists.
    + intros [? [= -> _]]. split; [lia | done].
Qed.

Lemma last_Some_In (l : list Event) (e : Event) : last l = Some e -> In e l.
Proof.
  intros H. apply last_Some in H as [l' ->].
  apply in_or_app. right. by left.
Qed.

Ltac split_ors :=
  repeat match goal with
         | H : _ \/ _ |- _ => destruct H as [H | H]
         end.

Section MoreOfMain.
Variable version_String : string.
Variable ParseInt : string -> option Z.

(** X1.  The version line is printed exactly in the runs whose first
    argument is [--version], and it is the only thing such a run prints:
    [--version] in any later position prints nothing. *)
Theorem banner_iff_first_argument (p : Process) (s : string) :
  In (Printf s) (run version_String ParseInt p).1 <->
  (exists rest, arguments p = "--version" :: rest) /\ s = banner version_String.
Proof.
  rewrite <- is_version_first. split.
  - run_cases p; cbn [fst]; intros Hin; simpl in Hin; split_ors;
      try discriminate; try contradiction.
    injection Hin as <-. done.
  - intros [Hv ->]. rewrite (run_version _ _ _ Hv). simpl. by left.
Qed.

(** X2.  Server objects are created exactly in the runs that are not a
    version request and whose flags parse: a flag error or a request for
    help ends the run with nothing created. *)
Theorem servers_iff_flags_parse (p : Process) :
  In GrpcNewServer (run version_String ParseInt p).1 <->
  is_version p = false /\
  exists vals rest,
    flag.Parse ParseInt CommandLine (arguments p) = flag.Parsed vals rest.
Proof.
  split.
  - run_cases p; cbn [fst]; intros Hin; simpl in Hin; split_ors;
      try discriminate; try contradiction; eauto.
  - intros [Hv (vs & rs & Hp)].
    run_cases p; simplify_eq; simpl; tauto.
Qed.

(** X3.  Every record a run writes is at or above the level
    [getLogLevel] gives, and is of level [Info] or [Error]; so under
    [LOG_LEVEL=warn] or [LOG_LEVEL=error] a run writes error records
    only. *)
Theorem records_respect_level (p : Process) (r : slog.Record_) :
  In (Log r) (run version_String ParseInt p).1 ->
  getLogLevel (environ p) <= slog.level r /\
  (slog.level r = slog.LevelInfo \/ slog.level r = slog.LevelError) /\
  (os.Getenv (environ p) "LOG_LEVEL" = "warn" \/
   os.Getenv (environ p) "LOG_LEVEL" = "error" ->
   slog.level r = slog.LevelError).
Proof.
  intros Hin.
  assert (H : getLogLevel (environ p) <= slog.level r /\
              (slog.level r = slog.LevelInfo \/ slog.level r = slog.LevelError)).
  { assert (Hen : forall l, slog.Enabled (newHandler (environ p)) l
                         = (getLogLevel (environ p) <=? l))
      by (intros l; unfold newHandler; destruct (String.eqb _ _); reflexivity).
    pose proof (error_enabled (environ p)) as He. rewrite Hen in He.
    revert Hin. run_cases p; cbn [fst]; intros Hin; simpl in Hin; split_ors;
      try discriminate; try contradiction; injection Hin as <-;
      cbn [slog.level]; rewrite ?Hen in *;
      (split; [apply Z.leb_le; assumption | tauto]). }
  destruct H as [Hle Hl]. split; [done |]. split; [done |].
  intros Hv. destruct Hl as [Hl | Hl]; [| done].
  rewrite Hl in Hle. unfold getLogLevel in Hle.
  destruct Hv as [Hv | Hv]; rewrite Hv in Hle; simpl in Hle;
    unfold slog.LevelWarn, slog.LevelError, slog.LevelInfo in Hle; lia.
Qed.

End MoreOfMain.

Section MoreOfMain2.
Variable version_String : string.
Variable ParseInt : string -> option Z.

(** X4.  A run that ends with exit status 1 has written an error
    record, whatever [LOG_LEVEL] is: one of the three failure messages
    of [main], through the handler chosen at start-up, with the error as
    its only attribute. *)
Theorem exit_one_is_logged (p : Process) :
  (run version_String ParseInt p).2 = Exit 1 ->
  exists r,
    In (Log r) (run version_String ParseInt p).1 /\
    slog.level r = slog.LevelError /\
    slog.handler r = slog.kind (newHandler (environ p)) /\
    (slog.msg r = "Failed to listen" \/
     slog.msg r = "Failed to serve gRPC" \/
     slog.msg r = "Failed to serve HTTP health server") /\
    exists err, slog.attrs r = [("error", slog.VError err)].
Proof.
  run_cases p; cbn [fst snd]; intros Hexit; try discriminate;
    eexists; (split; [apply last_Some_In; reflexivity |]);
    cbn; eauto 10.
Qed.

(** X5.  [main] returns only after the signal, and then the run ends
    with the shutdown in order: with both server goroutines started, the
    gRPC server is stopped gracefully, then the HTTP server is shut
    down, then the signal context is released. *)
Theorem returns_after_shutdown (p : Process) :
  (run version_String ParseInt p).2 = Ret tt ->
  serving p = Signalled /\
  exists pre,
    calls (run version_String ParseInt p).1
    = (pre ++ [ GoGrpcServe; GoHttpListenAndServe;
                GrpcGracefulStop; HttpShutdown; SignalStop ])%list.
Proof.
  run_cases p; cbn [fst snd]; intros Hret; try discriminate;
    (split; [done |]);
    eexists [_; _; _; _; _; _; _; _; _; _; _; _]; reflexivity.
Qed.

(** X6.  The shutdown calls are made in order and only in the serving
    phase: the graceful stop of the gRPC server never before both server
    goroutines are started, the shutdown of the HTTP server never before
    the graceful stop, the release of the signal context never before
    the shutdown of the HTTP server.  So a run that ends before the
    goroutines are started makes none of them. *)
Theorem shutdown_in_order (p : Process) :
  (forall pre post,
     (run version_String ParseInt p).1 = (pre ++ GrpcGracefulStop :: post)%list ->
     In GoGrpcServe pre /\ In GoHttpListenAndServe pre) /\
  (forall pre post,
     (run version_String ParseInt p).1 = (pre ++ HttpShutdown :: post)%list ->
     In GrpcGracefulStop pre) /\
  (forall pre post,
     (run version_String ParseInt p).1 = (pre ++ SignalStop :: post)%list ->
     In HttpShutdown pre) /\
  (~ In GoGrpcServe (run version_String ParseInt p).1 ->
   ~ In GrpcGracefulStop (run version_String ParseInt p).1 /\
   ~ In HttpShutdown (run version_String ParseInt p).1 /\
   ~ In SignalStop (run version_String ParseInt p).1).
Proof.
  assert (H : each_point shutdown_ordered [] (run version_String ParseInt p).1
              = true)
    by (run_cases p; vm_compute; reflexivity).
  pose proof (each_point_split _ _ _ H) as Hsplit. simpl in Hsplit.
  assert (H1 : forall pre post,
            (run version_String ParseInt p).1
              = (pre ++ GrpcGracefulStop :: post)%list ->
            In GoGrpcServe pre /\ In GoHttpListenAndServe pre).
  { intros pre post Heq. specialize (Hsplit _ _ Heq). simpl in Hsplit.
    apply andb_prop in Hsplit as [Ha Hb]. split; by apply has_In. }
  assert (H2 : forall pre post,
            (run version_String ParseInt p).1
              = (pre ++ HttpShutdown :: post)%list ->
            In GrpcGracefulStop pre).
  { intros pre post Heq. specialize (Hsplit _ _ Heq). by apply has_In. }
  assert (H3 : forall pre post,
            (run version_String ParseInt p).1 = (pre ++ SignalStop :: post)%list ->
            In HttpShutdown pre).
  { intros pre post Heq. specialize (Hsplit _ _ Heq). by apply has_In. }
  split; [exact H1 |]. split; [exact H2 |]. split; [exact H3 |].
  intros Hno.
  assert (Hg : ~ In GrpcGracefulStop (run version_String ParseInt p).1).
  { intros Hin. apply in_split in Hin as (pre & post & Heq).
    destruct (H1 _ _ Heq) as [Hgo _]. apply Hno. rewrite Heq.
    apply in_or_app. by left. }
  assert (Hh : ~ In HttpShutdown (run version_String ParseInt p).1).
  { intros Hin. apply in_split in Hin as (pre & post & Heq).
    apply Hg. rewrite Heq. apply in_or_app. left. by eapply H2. }
  split; [exact Hg |]. split; [exact Hh |].
  intros Hin. apply in_split in Hin as (pre & post & Heq).
  apply Hh. rewrite Heq. apply in_or_app. left. by eapply H3.
Qed.

(** X7.  No server goroutine is started before what it serves is in
    place: when the gRPC server starts serving, the provider service and
    the health service are registered and the listener exists; when the
    HTTP server starts, both endpoints are registered and the server is
    configured. *)
Theorem serve_after_registration (p : Process) :
  (forall pre post,
     (run version_String ParseInt p).1 = (pre ++ GoGrpcServe :: post)%list ->
     In RegisterProviderServer pre /\ In RegisterHealthServer pre /\
     exists address, In (NetListen address) pre /\ listen p address = None) /\
  (forall pre post,
     (run version_String ParseInt p).1
       = (pre ++ GoHttpListenAndServe :: post)%list ->
     In (HttpHandleFunc "/healthz") pre /\ In (HttpHandleFunc "/readyz") pre /\
     exists addr, In (HttpServer addr) pre).
Proof.
  assert (H : each_point ready_to_serve [] (run version_String ParseInt p).1
              = true)
    by (run_cases p; vm_compute; reflexivity).
  pose proof (each_point_split _ _ _ H) as Hsplit. simpl in Hsplit.
  assert (Hl : forall address,
            In (NetListen address) (run version_String ParseInt p).1 ->
            In GoGrpcServe (run version_String ParseInt p).1 ->
            listen p address = None).
  { run_cases p; cbn [fst]; intros address Hin Hgo; simpl in Hin, Hgo;
      split_ors; try discriminate; try contradiction; by simplify_eq. }
  split; intros pre post Heq; specialize (Hsplit _ _ Heq);
    simpl in Hsplit; rewrite !andb_true_iff in Hsplit;
    destruct Hsplit as [[H1 H2] H3];
    (split; [by apply has_In | split; [by apply has_In |]]);
    apply existsb_exists in H3 as (e & Hin & He);
    destruct e; try discriminate; eexists; (split || idtac); eauto.
  apply Hl; rewrite Heq; apply in_or_app; [by left | right; by left].
Qed.

End MoreOfMain2.

Section MoreOfMain3.
Variable version_String : string.
Variable ParseInt : string -> option Z.

(** X8.  The start-up record repeats what [main] hands on: its [port]
    is the number in the address given to [net.Listen], its
    [health_port] the number in the address the HTTP server is
    configured with, its [log_format] the value of [LOG_FORMAT] as it
    is, and its [version] the version string. *)
Theorem startup_record_is_accurate (p : Process) (r : slog.Record_) :
  In (Log r) (run version_String ParseInt p).1 ->
  slog.msg r = "Starting Libvirt provider server" ->
  exists port healthPort,
    In ("port", slog.VInt port) (slog.attrs r) /\
    In (NetListen (":" +:+ itoa port)) (run version_String ParseInt p).1 /\
    In ("health_port", slog.VInt healthPort) (slog.attrs r) /\
    In (HttpServer (":" +:+ itoa healthPort)) (run version_String ParseInt p).1 /\
    In ("log_format", slog.VString (os.Getenv (environ p) "LOG_FORMAT"))
       (slog.attrs r) /\
    In ("version", slog.VString version_String) (slog.attrs r).
Proof.
  run_cases p; cbn [fst]; intros Hin Hmsg; simpl in Hin; split_ors;
    try discriminate; try contradiction; simplify_eq;
    try discriminate Hmsg;
    exists (flagValue vals "port"), (flagValue vals "health-port");
    simpl; tauto.
Qed.

(** X9.  The start-up record is written at level [Info], so the
    [log_level] it reports is [DEBUG] or [INFO] only: [DEBUG] exactly
    under [LOG_LEVEL=debug]; under [warn] and [error] the record is not
    written at all. *)
Theorem startup_record_level (p : Process) (r : slog.Record_) :
  In (Log r) (run version_String ParseInt p).1 ->
  slog.msg r = "Starting Libvirt provider server" ->
  os.Getenv (environ p) "LOG_LEVEL" <> "warn" /\
  os.Getenv (environ p) "LOG_LEVEL" <> "error" /\
  In ("log_level",
      slog.VString (if String.eqb (os.Getenv (environ p) "LOG_LEVEL") "debug"
                    then "DEBUG" else "INFO"))
     (slog.attrs r).
Proof.
  run_cases p; cbn [fst]; intros Hin Hmsg; simpl in Hin; split_ors;
    try discriminate; try contradiction; simplify_eq;
    try discriminate Hmsg;
    rewrite info_enabled in Hinfo; unfold getLogLevel in *; cbn [slog.attrs];
    destruct (String.eqb (os.Getenv (environ p) "LOG_LEVEL") "debug") eqn:Ed;
    destruct (String.eqb (os.Getenv (environ p) "LOG_LEVEL") "warn") eqn:Ew;
    destruct (String.eqb (os.Getenv (environ p) "LOG_LEVEL") "error") eqn:Ee;
    try discriminate Hinfo;
    rewrite ?String.eqb_eq, ?String.eqb_neq in *;
    repeat split; try congruence; right; left; reflexivity.
Qed.

Lemma CommandLine_port : CommandLine !! "port" = Some 9443.
Proof. reflexivity. Qed.

Lemma CommandLine_health_port : CommandLine !! "health-port" = Some 8080.
Proof. reflexivity. Qed.

(** X10.  The value of the [port] flag, written [-port v] or [--port v],
    is the port of the listener and leaves the health port at 8080; the
    value of [-health-port=v] is the port of the HTTP server and leaves
    the listener on 9443. *)
Theorem flags_set_the_ports (p : Process) (v : string) (n : Z) :
  ParseInt v = Some n ->
  (arguments p = ["-port"; v] \/ arguments p = ["--port"; v] ->
   In (NetListen (":" +:+ itoa n)) (run version_String ParseInt p).1 /\
   (listen p (":" +:+ itoa n) = None ->
    In (HttpServer ":8080") (run version_String ParseInt p).1)) /\
  (arguments p = ["-health-port=" +:+ v] ->
   In (NetListen ":9443") (run version_String ParseInt p).1 /\
   (listen p ":9443" = None ->
    In (HttpServer (":" +:+ itoa n)) (run version_String ParseInt p).1)).
Proof.
  intros Hv. split.
  - intros Hargs.
    assert (Hnv : is_version p = false)
      by (unfold is_version, os_Args; destruct Hargs as [-> | ->]; reflexivity).
    assert (Hp : flag.Parse ParseInt CommandLine (arguments p)
                 = flag.Parsed (<["port" := n]> CommandLine) []).
    { destruct Hargs as [-> | ->]; unfold flag.Parse;
        cbn [length flag.parseLoop]; unfold flag.parseOne at 1;
        cbn [Ascii.eqb Bool.eqb andb orb String.eqb flag.cut_eq];
        rewrite CommandLine_port; unfold flag.set; rewrite Hv; reflexivity. }
    run_cases p; simplify_eq;
      unfold flagValue in *; rewrite ?lookup_insert_eq in *;
      rewrite ?lookup_insert_ne, ?CommandLine_health_port in * by done;
      cbn [fst default from_option id] in *;
      change (":" +:+ itoa 8080) with ":8080" in *;
      (split; [simpl; tauto |]);
      first [ intros Hn; congruence | intros _; simpl; tauto ].
  - intros Hargs.
    assert (Hnv : is_version p = false)
      by (unfold is_version, os_Args; rewrite Hargs; reflexivity).
    assert (Hp : flag.Parse ParseInt CommandLine (arguments p)
                 = flag.Parsed (<["health-port" := n]> CommandLine) []).
    { rewrite Hargs; cbv beta iota delta [String.append]; unfold flag.Parse;
        cbn [length flag.parseLoop]; unfold flag.parseOne at 1;
        cbn [Ascii.eqb Bool.eqb andb orb String.eqb flag.cut_eq String.append];
        rewrite CommandLine_health_port; unfold flag.set; rewrite Hv;
        reflexivity. }
    run_cases p; simplify_eq;
      unfold flagValue in *; rewrite ?lookup_insert_eq in *;
      rewrite ?lookup_insert_ne, ?CommandLine_port in * by done;
      cbn [fst default from_option id] in *;
      change (":" +:+ itoa 9443) with ":9443" in *;
      (split; [simpl; tauto |]);
      first [ intros Hn; congruence | intros _; simpl; tauto ].
Qed.

(** X11.  For every request to [/healthz], whatever the state of the
    dependencies, the answer has status 200; its body is [ok], except
    that the answer to a [HEAD] request has no body. *)
Theorem healthz_unconditional (d : Dependencies) (r : http.Request) :
  http.Path r = "/healthz" ->
  http.status (respond d r) = Some http.StatusOK /\
  http.body (respond d r)
    = (if String.eqb (http.Method r) "HEAD" then EmptyString else "ok").
Proof.
  intros H. unfold respond, http.ServeHTTP. rewrite H.
  cbn. unfold http.fresh, http.Write, http.WriteHeader. cbn.
  by destruct (String.eqb (http.Method r) "HEAD").
Qed.

End MoreOfMain3.

(** ** The further properties at sample inputs *)

Lemma records_respect_level_serve_fails :
  In (Log serve_error_record) (run "v0.2.1" no_int serve_fails).1 /\
  getLogLevel (environ serve_fails) <= slog.level serve_error_record.
Proof.
  assert (H : In (Log serve_error_record) (run "v0.2.1" no_int serve_fails).1)
    by (vm_compute; tauto).
  split; [exact H |].
  exact (proj1 (records_respect_level "v0.2.1" no_int serve_fails
                  serve_error_record H)).
Defined.

(** A health port given on the command line, in a run that goes on
    serving. *)
Example health_port_run :
  In (HttpServer ":8181") (run "v0.2.1" decimal with_health_port).1 /\
  (run "v0.2.1" decimal with_health_port).2 = Blocked.
Proof. vm_compute. tauto. Qed.

Lemma exit_one_is_logged_serve_fails :
  (run "v0.2.1" no_int serve_fails).2 = Exit 1 /\
  exists r, In (Log r) (run "v0.2.1" no_int serve_fails).1 /\
            slog.level r = slog.LevelError.
Proof.
  split; [reflexivity |].
  destruct (exit_one_is_logged "v0.2.1" no_int serve_fails eq_refl)
    as (r & Hin & Hlevel & _).
  exists r. split; [exact Hin | exact Hlevel].
Defined.

Lemma returns_after_shutdown_plain :
  (run "v0.2.1" no_int plain).2 = Ret tt /\ serving plain = Signalled.
Proof.
  split; [reflexivity |].
  exact (proj1 (returns_after_shutdown "v0.2.1" no_int plain eq_refl)).
Defined.

Lemma startup_record_is_accurate_plain :
  In (Log startup_record) (run "v0.2.1" no_int plain).1 /\
  exists port,
    In ("port", slog.VInt port) (slog.attrs startup_record) /\
    In (NetListen (":" +:+ itoa port)) (run "v0.2.1" no_int plain).1.
Proof.
  assert (H : In (Log startup_record) (run "v0.2.1" no_int plain).1)
    by (vm_compute; tauto).
  split; [exact H |].
  destruct (startup_record_is_accurate "v0.2.1" no_int plain startup_record
              H eq_refl) as (port & _ & Hp & Hl & _).
  exists port. split; [exact Hp | exact Hl].
Defined.

Lemma startup_record_level_plain :
  In (Log startup_record) (run "v0.2.1" no_int plain).1 /\
  In ("log_level", slog.VString "INFO") (slog.attrs startup_record).
Proof.
  assert (H : In (Log startup_record) (run "v0.2.1" no_int plain).1)
    by (vm_compute; tauto).
  split; [exact H |].
  exact (proj2 (proj2 (startup_record_level "v0.2.1" no_int plain
                         startup_record H eq_refl))).
Defined.

Lemma flags_set_the_ports_with_port :
  decimal "7000" = Some 7000 /\
  arguments with_port = ["--port"; "7000"] /\
  In (NetListen ":7000") (run "v0.2.1" decimal with_port).1 /\
  In (HttpServer ":8080") (run "v0.2.1" decimal with_port).1.
Proof.
  split; [reflexivity |]. split; [reflexivity |].
  destruct (proj1 (flags_set_the_ports "v0.2.1" decimal with_port "7000" 7000
                     eq_refl) (or_intror eq_refl)) as [Hl Hh].
  split; [exact Hl | exact (Hh eq_refl)].
Defined.

Lemma healthz_unconditional_unhealthy :
  http.Path get_healthz = "/healthz" /\
  http.status (respond unhealthy get_healthz) = Some 200 /\
  http.body (respond unhealthy get_healthz) = EmptyString.
Proof.
  split; [reflexivity |].
  exact (healthz_unconditional unhealthy get_healthz eq_refl).
Defined.
